(** * Authentication handlers and user routes of the turf-booking server

    A shallow embedding of [server/modules/auth] (the request handlers
    [register], [login], [adminLogin], [logout], [getMe], [forgotPassword],
    [verifyEmail]) and of the route table of [server/modules/user/user.routes.ts],
    followed by the properties the specification states about them.

    Conventions.
    - A JavaScript string is a [string]: a sequence of code units, here the
      units 0..255.
    - A JavaScript object is a finite map from property names to values
      ([gmap string Json]); [delete obj.k] is [delete "k" obj].
    - A Mongoose collection is the list of its documents in insertion order,
      which is the order [findOne] scans.
    - [next(new ErrorResponse(message, code))] is the result [Next]; the
      central error handler that turns it into a JSON envelope is outside the
      modelled code.
    - The services the handlers await ([authService], [validator.isEmail],
      JWT verification) are parameters of the development. *)

From stdpp Require Import base strings gmap list.
From Stdlib Require Import Ascii ZArith.

#[local] Open Scope string_scope.
#[local] Open Scope Z_scope.

(** ** JavaScript strings *)

Definition codeUnit (c : ascii) : N := N_of_ascii c.

(** The class [\s] of JavaScript regular expressions, on the units 0..255:
    TAB, LF, VT, FF, CR, SPACE and NO-BREAK SPACE. *)
Definition isWhitespace (c : ascii) : bool :=
  let n := codeUnit c in
  (((9 <=? n) && (n <=? 13)) || (n =? 32) || (n =? 160))%N.

(** [String.prototype.toLowerCase] on one unit: A-Z, and the upper-case
    letters of the range 0xC0-0xDE (0xD7 is the multiplication sign). *)
Definition lowerCodeUnit (c : ascii) : ascii :=
  let n := codeUnit c in
  if (((65 <=? n) && (n <=? 90))
      || ((192 <=? n) && (n <=? 222) && negb (n =? 215)))%N
  then ascii_of_N (n + 32)
  else c.

Fixpoint toLowerCase (s : string) : string :=
  match s with
  | EmptyString => EmptyString
  | String c r => String (lowerCodeUnit c) (toLowerCase r)
  end.

(** JavaScript truthiness of a string: [!s] holds exactly for the empty one. *)
Definition isEmptyString (s : string) : bool :=
  match s with
  | EmptyString => true
  | String _ _ => false
  end.

(** [x ?? d] *)
Definition nullish {A : Type} (x : option A) (d : A) : A :=
  match x with
  | Some v => v
  | None => d
  end.

(** ** The part of [validator] the handlers use *)

Module validator.

(** [ltrim(str)]: [str.replace(/^\s+/g, '')]. *)
Fixpoint ltrim (s : string) : string :=
  match s with
  | EmptyString => EmptyString
  | String c r => if isWhitespace c then ltrim r else s
  end.

(** [rtrim(str)]: drops the trailing run of whitespace. *)
Fixpoint rtrim (s : string) : string :=
  match s with
  | EmptyString => EmptyString
  | String c r =>
      match rtrim r with
      | EmptyString => if isWhitespace c then EmptyString else String c EmptyString
      | String d r' => String c (String d r')
      end
  end.

(** [trim(str)] is [rtrim(ltrim(str))]. *)
Definition trim (s : string) : string := rtrim (ltrim s).

End validator.

(** ** JSON values *)

#[warnings="-register-all"]
Inductive Json : Type :=
  | JNull
  | JBool (b : bool)
  | JNum (z : Z)
  | JStr (s : string)
  | JObj (o : gmap string Json).

(** A property whose value is [undefined] is left out of the object. *)
Definition setOptional (k : string) (v : option Json) (o : gmap string Json)
  : gmap string Json :=
  match v with
  | Some j => <[k := j]> o
  | None => o
  end.

(** ** Documents *)

(** Milliseconds since the epoch, the value of a JavaScript [Date]. *)
Definition Date := Z.

Definition ObjectId := string.

Module User.

(** The fields of a user document that the handlers read or write. *)
Record t : Type := mk {
  _id : ObjectId;
  first_name : string;
  last_name : string;
  email : string;
  password : string;
  role : string;
  isVerified : bool;
  verificationToken : option string;
  verificationTokenExpires : option Date
}.

(** [user.toObject()] of a document loaded with every field, the password
    hash included ([User.create], or a query with [select("+password")]).
    The verification fields are loaded by default: [verifyEmail] reads them
    from a plain [findById]. *)
Definition toObject (u : t) : gmap string Json :=
  setOptional "verificationTokenExpires" (JNum <$> verificationTokenExpires u)
    (setOptional "verificationToken" (JStr <$> verificationToken u)
       (<["isVerified" := JBool (isVerified u)]>
          (<["role" := JStr (role u)]>
             (<["password" := JStr (password u)]>
                (<["email" := JStr (email u)]>
                   (<["last_name" := JStr (last_name u)]>
                      (<["first_name" := JStr (first_name u)]>
                         (<["_id" := JStr (_id u)]> ∅)))))))).

End User.

Module Token.

(** A password-reset token record, keyed by the user it belongs to. *)
Record t : Type := mk {
  userId : ObjectId;
  token : string
}.

End Token.

Module RegisterBody.

(** [req.body] of a registration; an absent property is [None]. *)
Record t : Type := mk {
  first_name : option string;
  last_name : option string;
  email : option string;
  password : option string;
  role : option string
}.

End RegisterBody.

Module LoginBody.

Record t : Type := mk {
  email : option string;
  password : option string
}.

End LoginBody.

(** ** The user collection *)

(** The comparison of the collation [{ locale: "en", strength: 2 }]: two
    strings are equal when they are equal up to letter case. *)
Definition collationEq (a b : string) : bool :=
  String.eqb (toLowerCase a) (toLowerCase b).

Module UserModel.

(** [User.findOne({ email })]: the first document whose email is exactly
    the given string. *)
Definition findOne (email : string) (users : list User.t) : option User.t :=
  List.find (fun u => String.eqb (User.email u) email) users.

(** [User.findOne({ email }).collation({ locale: "en", strength: 2 })]. *)
Definition findOneCollation (email : string) (users : list User.t)
  : option User.t :=
  List.find (fun u => collationEq (User.email u) email) users.

(** [User.findById(id)], for an id that Mongoose casts to an [ObjectId], as
    it does the id of every stored document. On a string that is no
    [ObjectId] the query of the source rejects with a [CastError]; such
    ids are outside this lookup. *)
Definition findById (id : ObjectId) (users : list User.t) : option User.t :=
  List.find (fun u => String.eqb (User._id u) id) users.

(** [user.save()]: the stored document with the id of [u] becomes [u]. *)
Fixpoint save (u : User.t) (users : list User.t) : list User.t :=
  match users with
  | [] => []
  | v :: rest =>
      if String.eqb (User._id v) (User._id u) then u :: rest
      else v :: save u rest
  end.

End UserModel.

(** ** Requests, responses and results *)

Record CookieOptions : Type := mkCookieOptions {
  httpOnly : bool;
  secure : option bool;
  sameSite : string;
  path : option string;
  maxAge : option Z;
  expires : option Date
}.

(** One call [res.cookie(name, value, options)]. *)
Record Cookie : Type := mkCookie {
  cookieName : string;
  cookieValue : string;
  cookieOptions : CookieOptions
}.

(** [res.status(status).json(body)], with the cookies set before it, in the
    order of the calls. *)
Record Response : Type := mkResponse {
  status : Z;
  cookies : list Cookie;
  body : gmap string Json
}.

Record ErrorResponse : Type := mkErrorResponse {
  message : string;
  statusCode : Z
}.

Inductive Result : Type :=
  | Sent (res : Response)
  | Next (err : ErrorResponse)
  | Thrown.

Inductive Method : Type := GET | POST | PUT | DELETE.

(** The part of a request that the router and the handlers [logout] and
    [getMe] can see: the method; the path name of the URL below the point
    where the router is mounted, without the query string; the cookies; the
    route parameters; and [req.user?.id] as the authentication middleware
    left it. *)
Record Request : Type := mkRequest {
  reqMethod : Method;
  reqPath : string;
  reqCookies : gmap string string;
  reqParams : gmap string string;
  reqUserId : option string
}.

(** Truthiness of a property that is a string when present. *)
Definition truthy (v : option string) : bool :=
  match v with
  | Some s => negb (isEmptyString s)
  | None => false
  end.

(** The HTTP status a result carries; a rejected service call that the
    handler does not catch carries none of its own. *)
Definition statusOf (r : Result) : option Z :=
  match r with
  | Sent res => Some (status res)
  | Next err => Some (statusCode err)
  | Thrown => None
  end.

(** The error message of a result that went to [next]. *)
Definition errorOf (r : Result) : option string :=
  match r with
  | Next err => Some (message err)
  | _ => None
  end.

(** ** The awaited services *)

(** What [authService.sendPasswordResetEmail] comes back with. *)
Inductive ResetMail : Type :=
  | MailSent (created : Token.t) (result : gmap string Json)
  | MailError (msg : string)
  | MailThrown.

(** [authService], of [./auth.service]. A rejected promise is [None].
    [sendVerificationEmail] yields the token and the expiry that it stores on
    the user document it is given, which [verifyEmail] later reads. When it
    rejects, [tokenLeftByFailedMail] is what the call had stored on the
    document before it failed, if anything. *)
Record AuthService : Type := mkAuthService {
  matchPassword : string -> User.t -> bool;
  generateToken : User.t -> string;
  checkAdminAccess : ObjectId -> option bool;
  checkUserRoleInOrganization : ObjectId -> string -> option bool;
  sendVerificationEmail : User.t -> option (string * Date);
  tokenLeftByFailedMail : User.t -> option (string * Date);
  sendPasswordResetEmail : User.t -> ResetMail
}.

(** 30 days, in milliseconds. *)
Definition thirtyDays : Z := 30 * 24 * 60 * 60 * 1000.

(** ** The handlers of the auth module *)

Section AuthController.

(** [validator.isEmail]. *)
Variable isEmail : string -> bool.
Variable authService : AuthService.
(** The pre-save hook of the user model, which hashes the password. *)
Variable hashPassword : string -> string.
(** The [_id] that the database gives a new document. *)
Variable newObjectId : list User.t -> ObjectId.
(** [process.env.NODE_ENV]. *)
Variable NODE_ENV : option string.

Definition production : bool :=
  match NODE_ENV with
  | Some v => String.eqb v "production"
  | None => false
  end.

Definition fail (msg : string) (code : Z) : Result :=
  Next (mkErrorResponse msg code).

(** [User.create({ first_name, last_name, email, password, role })]: the
    password is stored hashed; a new account is unverified and carries no
    verification token. The collection gains the document at its end. *)
Definition create (users : list User.t)
    (first_name last_name email password role : string) : User.t :=
  User.mk (newObjectId users) first_name last_name email
    (hashPassword password) role false None None.

Definition withVerification (u : User.t) (tok : string) (exp : Date) : User.t :=
  User.mk (User._id u) (User.first_name u) (User.last_name u) (User.email u)
    (User.password u) (User.role u) (User.isVerified u) (Some tok) (Some exp).

(** The document as a rejected [sendVerificationEmail] leaves it. *)
Definition afterFailedMail (u : User.t) : User.t :=
  match tokenLeftByFailedMail authService u with
  | Some (tok, exp) => withVerification u tok exp
  | None => u
  end.

(** POST /api/v1/auth/register *)
Definition register (users : list User.t) (body : RegisterBody.t)
  : Result * list User.t :=
  let first_name := validator.trim (nullish (RegisterBody.first_name body) "") in
  let last_name := validator.trim (nullish (RegisterBody.last_name body) "") in
  let email := toLowerCase (validator.trim (nullish (RegisterBody.email body) "")) in
  let password := validator.trim (nullish (RegisterBody.password body) "") in
  let role := RegisterBody.role body in
  if isEmptyString first_name || isEmptyString last_name
     || isEmptyString email || isEmptyString password
  then (fail "All fields are required" 400, users)
  else if negb (isEmail email)
  then (fail "Invalid email format" 400, users)
  else
    match UserModel.findOneCollation email users with
    | Some _ => (fail "Email already registered" 400, users)
    | None =>
        let user := create users first_name last_name email password
                      (nullish role "user") in
        match sendVerificationEmail authService user with
        | None => (Thrown, (users ++ [afterFailedMail user])%list)
        | Some (tok, exp) =>
            let user := withVerification user tok exp in
            let userWithoutPassword := delete "password" (User.toObject user) in
            (Sent (mkResponse 201 []
               (<["success" := JBool true]>
                  (<["data" := JObj (<["user" := JObj userWithoutPassword]> ∅)]>
                     (<["message" := JStr
                          "Registration successful! Please check your email to verify your account."]>
                        ∅)))),
             (users ++ [user])%list)
        end
    end.

(** POST /api/v1/auth/login *)
Definition login (users : list User.t) (body : LoginBody.t) : Result :=
  let email := toLowerCase (validator.trim (nullish (LoginBody.email body) "")) in
  let password := validator.trim (nullish (LoginBody.password body) "") in
  if isEmptyString email || isEmptyString password
  then fail "Please provide an email and password" 400
  else if negb (isEmail email)
  then fail "Invalid email format" 400
  else
    match UserModel.findOneCollation email users with
    | None => fail "Invalid credentials" 401
    | Some user =>
        if negb (matchPassword authService password user)
        then fail "Invalid credentials" 401
        else
          let token := generateToken authService user in
          let userWithoutPassword := delete "password" (User.toObject user) in
          Sent (mkResponse 200
            [mkCookie "token" token
               (mkCookieOptions true (Some production) "none" None
                  (Some thirtyDays) None)]
            (<["success" := JBool true]>
               (<["data" := JObj (<["user" := JObj userWithoutPassword]>
                                    (<["token" := JStr token]> ∅))]> ∅)))
    end.

(** POST /api/v1/auth/admin/login *)
Definition adminLogin (users : list User.t) (body : LoginBody.t) : Result :=
  let email := toLowerCase (validator.trim (nullish (LoginBody.email body) "")) in
  let password := validator.trim (nullish (LoginBody.password body) "") in
  if isEmptyString email || isEmptyString password
  then fail "Please provide an email and password" 400
  else if negb (isEmail email)
  then fail "Invalid email format" 400
  else
    match UserModel.findOneCollation email users with
    | None => fail "Invalid credentials" 401
    | Some user =>
        if negb (matchPassword authService password user)
        then fail "Invalid credentials" 401
        else
          match checkAdminAccess authService (User._id user) with
          | None => fail "Admin access verification failed" 500
          | Some false => fail "Unauthorized access to admin dashboard" 403
          | Some true =>
              let token := generateToken authService user in
              let userWithoutPassword := delete "password" (User.toObject user) in
              Sent (mkResponse 200
                [mkCookie "admin_token" token
                   (mkCookieOptions true (Some production) "lax" (Some "/")
                      (Some thirtyDays) None);
                 mkCookie "token" token
                   (mkCookieOptions true (Some production) "lax" (Some "/")
                      (Some thirtyDays) None)]
                (<["success" := JBool true]>
                   (<["data" := JObj (<["user" := JObj userWithoutPassword]> ∅)]>
                      ∅)))
          end
    end.

(** The options of a cookie cleared by [logout]: [expires: new Date(0)]. *)
Definition expired : CookieOptions :=
  mkCookieOptions true None "lax" None None (Some 0).

(** POST /api/v1/auth/logout *)
Definition logout (req : Request) : Result :=
  Sent (mkResponse 200
    [mkCookie "token" "" expired;
     mkCookie "admin_token" "" expired;
     mkCookie "org_token" "" expired]
    (<["success" := JBool true]>
       (<["message" := JStr "Logged out successfully"]> ∅))).

(** The projection [select("-password -verificationToken
    -verificationTokenExpires")], as the JSON of the selected document. *)
Definition selectPublic (u : User.t) : gmap string Json :=
  delete "verificationTokenExpires"
    (delete "verificationToken" (delete "password" (User.toObject u))).

(** GET /api/v1/auth/me *)
Definition getMe (users : list User.t) (req : Request) : Result :=
  if negb (truthy (reqUserId req))
  then fail "User not authenticated" 401
  else
    match UserModel.findById (nullish (reqUserId req) "") users with
    | None => fail "User not found" 404
    | Some user =>
        let adminCheck : option Result :=
          if truthy (reqCookies req !! "admin_token")
          then
            match checkAdminAccess authService (User._id user) with
            | None => Some (fail "Admin access verification failed" 500)
            | Some false => Some (fail "Not authorized as admin" 403)
            | Some true => None
            end
          else None in
        match adminCheck with
        | Some r => r
        | None =>
            let orgCheck : option Result :=
              if truthy (reqCookies req !! "org_token")
                 && truthy (reqParams req !! "organizationId")
              then
                match checkUserRoleInOrganization authService (User._id user)
                        (nullish (reqParams req !! "organizationId") "") with
                | None => Some (fail "Organization access verification failed" 403)
                | Some false => Some (fail "Not authorized as organization owner" 403)
                | Some true => None
                end
              else None in
            match orgCheck with
            | Some r => r
            | None =>
                Sent (mkResponse 200 []
                  (<["success" := JBool true]>
                     (<["data" := JObj (selectPublic user)]> ∅)))
            end
        end
    end.

(** [token.deleteOne()] on the record [Token.findOne({ userId })] found. *)
Fixpoint deleteTokenOf (id : ObjectId) (tokens : list Token.t) : list Token.t :=
  match tokens with
  | [] => []
  | t :: rest =>
      if String.eqb (Token.userId t) id then rest
      else t :: deleteTokenOf id rest
  end.

(** POST /api/v1/auth/forgot-password *)
Definition forgotPassword (users : list User.t) (tokens : list Token.t)
    (email : option string) : Result * list Token.t :=
  if negb (truthy email)
  then (fail "Please provide an email" 400, tokens)
  else
    match UserModel.findOne (nullish email "") users with
    | None => (fail "User not found" 404, tokens)
    | Some user =>
        let tokens1 := deleteTokenOf (User._id user) tokens in
        match sendPasswordResetEmail authService user with
        | MailSent created result =>
            (Sent (mkResponse 200 [] result), (tokens1 ++ [created])%list)
        | MailError msg =>
            (fail ("Failed to send password reset email: " +:+ msg) 500, tokens1)
        | MailThrown =>
            (fail "An unexpected error occurred while sending reset email" 500,
             tokens1)
        end
    end.

(** [new Date() > user.verificationTokenExpires]; a comparison with
    [undefined] is false. *)
Definition pastExpiry (now : Date) (exp : option Date) : bool :=
  match exp with
  | Some e => e <? now
  | None => false
  end.

(** [user.verificationToken !== token] *)
Definition tokenDiffers (stored : option string) (token : string) : bool :=
  match stored with
  | Some t => negb (String.eqb t token)
  | None => true
  end.

Definition markVerified (u : User.t) : User.t :=
  User.mk (User._id u) (User.first_name u) (User.last_name u) (User.email u)
    (User.password u) (User.role u) true None None.

(** POST /api/v1/auth/verify-email?token=token&id=id, handled at time [now] *)
Definition verifyEmail (now : Date) (users : list User.t)
    (token id : option string) : Result * list User.t :=
  if negb (truthy token) || negb (truthy id)
  then (fail "Invalid verification link" 400, users)
  else
    match UserModel.findById (nullish id "") users with
    | None => (fail "User not found" 404, users)
    | Some user =>
        if tokenDiffers (User.verificationToken user) (nullish token "")
           || pastExpiry now (User.verificationTokenExpires user)
        then (fail "Invalid or expired token" 400, users)
        else
          (Sent (mkResponse 200 []
             (<["success" := JBool true]>
                (<["message" := JStr "Email verified successfully!"]> ∅))),
           UserModel.save (markVerified user) users)
    end.

End AuthController.

(** ** The routes of the user module *)

Module UserRoutes.

(** The middleware and the controller functions that the route table names. *)
Inductive Handler : Type :=
  | protect
  | getUsersAdmin
  | getUserByIdAdmin
  | getCurrentUserProfile
  | updateUserProfile
  | changePassword
  | getUserOrganizations.

Inductive Segment : Type :=
  | Lit (s : string)
  | Param (name : string).

(** Cuts a string at every "/" and keeps the empty pieces: "/42/admin" falls
    into three pieces, an empty one, "42" and "admin"; "/42//admin/" falls
    into five, of which the first, the third and the last are empty. *)
Fixpoint splitPath (s : string) : list string :=
  match s with
  | EmptyString => [EmptyString]
  | String c r =>
      if Ascii.eqb c "/"%char then EmptyString :: splitPath r
      else match splitPath r with
           | seg :: rest => String c seg :: rest
           | [] => [String c EmptyString]
           end
  end.

(** A string without "/". *)
Fixpoint noSlash (s : string) : bool :=
  match s with
  | EmptyString => true
  | String c r => negb (Ascii.eqb c "/"%char) && noSlash r
  end.

(** The pieces put together again, with a "/" between them. *)
Fixpoint joinPath (ss : list string) : string :=
  match ss with
  | [] => EmptyString
  | s :: rest =>
      match rest with
      | [] => s
      | _ :: _ => s +:+ String "/"%char (joinPath rest)
      end
  end.

(** The pieces without the one empty piece that a "/" at the end leaves. *)
Fixpoint dropTrailingSlash (ss : list string) : list string :=
  match ss with
  | [] => []
  | s :: rest =>
      match rest with
      | [] => if isEmptyString s then [] else [s]
      | _ :: _ => s :: dropTrailingSlash rest
      end
  end.

(** The segments of a path: what stands between its "/", the path beginning
    with one and ending with at most one that is not counted. A path that
    begins otherwise has none. *)
Definition pathSegments (url : string) : option (list string) :=
  match splitPath url with
  | EmptyString :: rest => Some (dropTrailingSlash rest)
  | _ => None
  end.

Definition segmentOf (s : string) : Segment :=
  match s with
  | String ":" name => Param name
  | _ => Lit s
  end.

(** A route path of the tables, such as "/:userId/admin", segment by
    segment; "/" has no segment. *)
Definition pattern (path : string) : list Segment :=
  match pathSegments path with
  | Some ss => map segmentOf ss
  | None => []
  end.

(** The regular expression that the router compiles a route path to, read
    segment by segment: a parameter is [[^\/]+?], one non-empty segment; a
    literal segment matches without regard to case, as the routers are
    created without [caseSensitive]; the path may end with one more "/", as
    they are created without [strict]. *)
Definition matchSegment (p : Segment) (s : string) : bool :=
  match p with
  | Lit l => String.eqb (toLowerCase l) (toLowerCase s)
  | Param _ => negb (isEmptyString s)
  end.

Fixpoint matchSegments (ps : list Segment) (ss : list string) : bool :=
  match ps, ss with
  | [], [] => true
  | p :: ps', s :: ss' => matchSegment p s && matchSegments ps' ss'
  | _, _ => false
  end.

(** The segments that the parameters of a route path capture. *)
Fixpoint captures (ps : list Segment) (ss : list string) : list string :=
  match ps, ss with
  | Param _ :: ps', s :: ss' => s :: captures ps' ss'
  | Lit _ :: ps', _ :: ss' => captures ps' ss'
  | _, _ => []
  end.

(** What the layer of a route makes of a path: the regular expression does
    not match; it matches and every captured parameter decodes; or it
    matches and a parameter does not decode, which the router keeps as an
    error of status 400. *)
Inductive LayerMatch : Type :=
  | Miss
  | Hit
  | DecodeError.

Section Layer.

(** [decodeURIComponent], which the router applies to every captured
    parameter; [None] when it throws a [URIError]. *)
Variable decodeURIComponent : string -> option string.

Definition decodes (v : string) : bool :=
  match decodeURIComponent v with
  | Some _ => true
  | None => false
  end.

Definition matchLayer (path : string) (url : string) : LayerMatch :=
  match pathSegments url with
  | None => Miss
  | Some ss =>
      if matchSegments (pattern path) ss
      then (if forallb decodes (captures (pattern path) ss)
            then Hit else DecodeError)
      else Miss
  end.

End Layer.

Definition methodEqb (a b : Method) : bool :=
  match a, b with
  | GET, GET | POST, POST | PUT, PUT | DELETE, DELETE => true
  | _, _ => false
  end.

Record Route : Type := mkRoute {
  routeMethod : Method;
  routePath : string;
  routeChain : list Handler
}.

Definition get (path : string) (chain : list Handler) : Route :=
  mkRoute GET path chain.

Definition put (path : string) (chain : list Handler) : Route :=
  mkRoute PUT path chain.

(** The table that [user.routes.ts] builds, in the order of its calls. *)
Definition router : list Route :=
  [ get "/admin" [protect; getUsersAdmin];
    get "/:userId/admin" [getUserByIdAdmin];
    get "/me" [protect; getCurrentUserProfile];
    put "/me" [protect; updateUserProfile];
    put "/change-password" [protect; changePassword];
    get "/organizations" [protect; getUserOrganizations] ].

(** What becomes of a request: a controller function runs on it; it is
    answered with an error status, by a middleware or because a parameter of
    its path does not decode; or no route takes it. *)
Inductive Outcome : Type :=
  | Reaches (h : Handler) (req : Request)
  | Rejected (code : Z)
  | Unrouted.

Section Dispatch.

(** [decodeURIComponent]; [None] when it throws. *)
Variable decodeURIComponent : string -> option string.

(** Verification of a signed session token: the user id it encodes, when
    the token is valid and has not expired. *)
Variable verifyToken : string -> option ObjectId.

(** Modelled from the spec: [protect] of [../auth/auth.middleware] is not
    among the sources. It extracts and verifies the session token from
    the cookie; on a valid token it attaches the decoded identity to the
    request and lets the chain proceed; on a missing, invalid or expired
    token it answers with an unauthorized response. *)
Definition runProtect (req : Request) : option Request :=
  match reqCookies req !! "token" with
  | None => None
  | Some tok =>
      match verifyToken tok with
      | None => None
      | Some id =>
          Some (mkRequest (reqMethod req) (reqPath req) (reqCookies req)
                  (reqParams req) (Some id))
      end
  end.

(** Runs the handlers of one route in order; [None] when the last one
    called [next()]. *)
Fixpoint runChain (chain : list Handler) (req : Request) : option Outcome :=
  match chain with
  | [] => None
  | protect :: rest =>
      match runProtect req with
      | Some req' => runChain rest req'
      | None => Some (Rejected 401)
      end
  | h :: _ => Some (Reaches h req)
  end.

(** The router tries the layers of its routes in the order of registration,
    on the path first and on the method next. [pending] tells that a layer
    tried before could not decode a parameter: the routes after it are
    passed over, and the request ends on the error, of status 400, when no
    layer is left. *)
Fixpoint dispatchFrom (pending : bool) (routes : list Route) (req : Request)
  : Outcome :=
  match routes with
  | [] => if pending then Rejected 400 else Unrouted
  | r :: rest =>
      match matchLayer decodeURIComponent (routePath r) (reqPath req) with
      | Miss => dispatchFrom pending rest req
      | DecodeError => dispatchFrom true rest req
      | Hit =>
          if pending || negb (methodEqb (routeMethod r) (reqMethod req))
          then dispatchFrom pending rest req
          else match runChain (routeChain r) req with
               | Some o => o
               | None => dispatchFrom false rest req
               end
      end
  end.

Definition dispatch (routes : list Route) (req : Request) : Outcome :=
  dispatchFrom false routes req.

End Dispatch.

End UserRoutes.

(** ** A concrete deployment, for running the handlers *)

Module Sample.

Fixpoint countChar (c : ascii) (s : string) : nat :=
  match s with
  | EmptyString => 0%nat
  | String d r => ((if Ascii.eqb c d then 1 else 0) + countChar c r)%nat
  end.

Fixpoint anyWhitespace (s : string) : bool :=
  match s with
  | EmptyString => false
  | String c r => isWhitespace c || anyWhitespace r
  end.

(** A stand-in for [validator.isEmail]: one "@" that is not the first unit,
    a "." somewhere, and no whitespace. *)
Definition isEmail (s : string) : bool :=
  Nat.eqb (countChar "@" s) 1
  && negb (match s with String "@" _ => true | _ => false end)
  && Nat.leb 1 (countChar "." s)
  && negb (anyWhitespace s).

Definition hashPassword (p : string) : string := "hash:" +:+ p.

Fixpoint tally (n : nat) : string :=
  match n with
  | O => EmptyString
  | S k => String "i" (tally k)
  end.

Definition newObjectId (users : list User.t) : ObjectId :=
  "user-" +:+ tally (length users).

(** Passwords match when the stored hash is the hash of the candidate; the
    session token names the user; the dashboard is open to the user "root";
    mail always goes out. *)
Definition authService : AuthService :=
  mkAuthService
    (fun p u => String.eqb (hashPassword p) (User.password u))
    (fun u => "jwt:" +:+ User._id u)
    (fun id => Some (String.eqb id "root"))
    (fun _ _ => Some false)
    (fun u => Some ("verify:" +:+ User._id u, 86400000))
    (fun _ => None)
    (fun u => MailSent (Token.mk (User._id u) "reset")
                (<["success" := JBool true]> ∅)).

(** A registered, not yet verified user. *)
Definition alice : User.t :=
  User.mk "user-" "Alice" "Doe" "a@test.com" (hashPassword "Passw0rd!")
    "user" false (Some "verify:user-") (Some 86400000).

(** An administrator, verified. *)
Definition root : User.t :=
  User.mk "root" "Root" "Admin" "root@test.com" (hashPassword "S3cret")
    "admin" true None None.

Definition users : list User.t := [alice; root].

Definition register := register isEmail authService hashPassword newObjectId.
Definition login := login isEmail authService (Some "production").
Definition adminLogin := adminLogin isEmail authService (Some "production").
Definition getMe := getMe authService.
Definition forgotPassword := forgotPassword authService.

Definition noCookies (m : Method) (url : string) : Request :=
  mkRequest m url ∅ ∅ None.

End Sample.

(** ** Vocabulary of the statements *)

(** The email and the password as [login] and [adminLogin] normalise them. *)
Definition loginEmail (b : LoginBody.t) : string :=
  toLowerCase (validator.trim (nullish (LoginBody.email b) "")).

Definition loginPassword (b : LoginBody.t) : string :=
  validator.trim (nullish (LoginBody.password b) "").

(** The input validation of [login] and [adminLogin] lets the body through:
    email and password are present after trimming and the email is well
    formed. *)
Definition loginInputOk (isEmail : string -> bool) (b : LoginBody.t) : bool :=
  negb (isEmptyString (loginEmail b) || isEmptyString (loginPassword b))
  && isEmail (loginEmail b).

(** The email as [register] normalises it. *)
Definition registerEmail (b : RegisterBody.t) : string :=
  toLowerCase (validator.trim (nullish (RegisterBody.email b) "")).

(** The input validation of [register] lets the body through. *)
Definition registerInputOk (isEmail : string -> bool) (b : RegisterBody.t)
  : bool :=
  negb (isEmptyString (validator.trim (nullish (RegisterBody.first_name b) ""))
        || isEmptyString (validator.trim (nullish (RegisterBody.last_name b) ""))
        || isEmptyString (registerEmail b)
        || isEmptyString (validator.trim (nullish (RegisterBody.password b) "")))
  && isEmail (registerEmail b).

(** Two strings that differ at most in the case of their letters. *)
Definition sameUpToCase (a b : string) : Prop :=
  toLowerCase a = toLowerCase b.

(** No surrounding whitespace. *)
Definition trimmed (s : string) : Prop := validator.trim s = s.

(** The invariant of the data model: no two stored users have emails that
    are equal up to letter case. *)
Definition emailsUnique (users : list User.t) : Prop :=
  NoDup (map (fun u => toLowerCase (User.email u)) users).

(** [data.user] of the response that a result sends. *)
Definition dataUser (r : Result) : option (gmap string Json) :=
  match r with
  | Sent res =>
      match body res !! "data" with
      | Some (JObj d) =>
          match d !! "user" with
          | Some (JObj u) => Some u
          | _ => None
          end
      | _ => None
      end
  | _ => None
  end.

(** [data] of the response that a result sends, when it is an object. *)
Definition dataOf (r : Result) : option (gmap string Json) :=
  match r with
  | Sent res =>
      match body res !! "data" with
      | Some (JObj d) => Some d
      | _ => None
      end
  | _ => None
  end.

(** The cookies that a result sets. *)
Definition cookiesOf (r : Result) : list Cookie :=
  match r with
  | Sent res => cookies res
  | _ => []
  end.

(** A cookie that is set HTTP-only, to [value], for 30 days. *)
Definition sessionCookie (name value : string) (c : Cookie) : Prop :=
  cookieName c = name /\ cookieValue c = value
  /\ httpOnly (cookieOptions c) = true
  /\ maxAge (cookieOptions c) = Some 2592000000.

(** A cookie that is set to the empty string and expires at the epoch. *)
Definition clearedCookie (name : string) (c : Cookie) : Prop :=
  cookieName c = name /\ cookieValue c = ""
  /\ expires (cookieOptions c) = Some 0.

(** ** Resending the verification mail *)

Section Verification.

(** [validator.isEmail]. *)
Variable isEmail : string -> bool.
Variable authService : AuthService.

(** POST /api/v1/auth/resend-verification. The email is looked up as the
    body carries it, neither trimmed nor lowered; the token that
    [sendVerificationEmail] issues is stored on the document found. *)
Definition resendVerificationEmail (users : list User.t) (email : option string)
  : Result * list User.t :=
  if negb (truthy email)
  then (fail "Email is required" 400, users)
  else if negb (isEmail (nullish email ""))
  then (fail "Invalid email format" 400, users)
  else
    match UserModel.findOneCollation (nullish email "") users with
    | None => (fail "User with this email not found" 404, users)
    | Some user =>
        if User.isVerified user
        then (fail "Email is already verified" 400, users)
        else
          match sendVerificationEmail authService user with
          | None =>
              (Thrown,
               match tokenLeftByFailedMail authService user with
               | Some (tok, exp) =>
                   UserModel.save (withVerification user tok exp) users
               | None => users
               end)
          | Some (tok, exp) =>
              (Sent (mkResponse 200 []
                 (<["success" := JBool true]>
                    (<["message" := JStr
                         "Verification email has been sent. Please check your inbox."]>
                       ∅))),
               UserModel.save (withVerification user tok exp) users)
          end
    end.

End Verification.

(** ** The routes of the facility module *)

Module FacilityRoutes.

Inductive Middleware : Type :=
  | protect
  | checkPermission (name : string).

(** The methods of [FacilityController] that the route table names. *)
Inductive Controller : Type :=
  | createFacility
  | getAllFacilities
  | getFacilityById
  | updateFacility
  | deleteFacility.

(** One argument of a route registration: a middleware, or the controller
    method that ends the chain. *)
Inductive Step : Type :=
  | Use (m : Middleware)
  | Call (c : Controller).

Record Route : Type := mkRoute {
  routeMethod : Method;
  routePath : string;
  routeChain : list Step
}.

(** The table that the facility routes file builds, in the order of its
    calls. *)
Definition router : list Route :=
  [ mkRoute POST "/"
      [Use protect; Use (checkPermission "manage_tags"); Call createFacility];
    mkRoute GET "/" [Call getAllFacilities];
    mkRoute GET "/:id" [Call getFacilityById];
    mkRoute PUT "/:id"
      [Use protect; Use (checkPermission "manage_tags"); Call updateFacility];
    mkRoute DELETE "/:id"
      [Use protect; Use (checkPermission "manage_tags"); Call deleteFacility] ].

Inductive Outcome : Type :=
  | Reaches (c : Controller) (req : Request)
  | Rejected (code : Z)
  | Unrouted.

Section Dispatch.

(** [decodeURIComponent]; [None] when it throws. *)
Variable decodeURIComponent : string -> option string.

(** What a middleware does with a request: it hands the request on, as it
    leaves it, by [next()], or it answers with an error status. The two
    middlewares live in [../auth/auth.middleware]. *)
Variable runMiddleware : Middleware -> Request -> Request + Z.

(** Runs the steps of one route in order; [None] when the last one called
    [next()]. *)
Fixpoint runChain (chain : list Step) (req : Request) : option Outcome :=
  match chain with
  | [] => None
  | Use m :: rest =>
      match runMiddleware m req with
      | inl req' => runChain rest req'
      | inr code => Some (Rejected code)
      end
  | Call c :: _ => Some (Reaches c req)
  end.

(** The router tries the layers of its routes in the order of registration,
    on the path first and on the method next; once a layer could not decode
    a parameter ([pending]) the routes after it are passed over and the
    request ends on the error, of status 400. *)
Fixpoint dispatchFrom (pending : bool) (routes : list Route) (req : Request)
  : Outcome :=
  match routes with
  | [] => if pending then Rejected 400 else Unrouted
  | r :: rest =>
      match UserRoutes.matchLayer decodeURIComponent (routePath r)
              (reqPath req) with
      | UserRoutes.Miss => dispatchFrom pending rest req
      | UserRoutes.DecodeError => dispatchFrom true rest req
      | UserRoutes.Hit =>
          if pending
             || negb (UserRoutes.methodEqb (routeMethod r) (reqMethod req))
          then dispatchFrom pending rest req
          else match runChain (routeChain r) req with
               | Some o => o
               | None => dispatchFrom false rest req
               end
      end
  end.

Definition dispatch (routes : list Route) (req : Request) : Outcome :=
  dispatchFrom false routes req.

End Dispatch.

(** The controller methods that change the facility catalogue. *)
Definition mutates (c : Controller) : bool :=
  match c with
  | createFacility | updateFacility | deleteFacility => true
  | getAllFacilities | getFacilityById => false
  end.

End FacilityRoutes.

(** ** Further vocabulary *)

(** The hash check accepts the password that the pre-save hook hashed. *)
Definition hashAccepted (authService : AuthService)
    (hashPassword : string -> string) : Prop :=
  forall p u, User.password u = hashPassword p ->
              matchPassword authService p u = true.

(** At most one reset token per user. *)
Definition oneTokenPerUser (tokens : list Token.t) : Prop :=
  NoDup (map Token.userId tokens).

(** The controller functions of the user routes that run on an identity. *)
Definition needsIdentity (h : UserRoutes.Handler) : bool :=
  match h with
  | UserRoutes.getUserByIdAdmin | UserRoutes.protect => false
  | _ => true
  end.

(** The cookie by which a result carries a session to the browser. *)
Definition cookieNamed (name : string) (r : Result) : option Cookie :=
  List.find (fun c => String.eqb (cookieName c) name) (cookiesOf r).

(** [data.token] of the response that a result sends. *)
Definition dataToken (r : Result) : option Json :=
  match dataOf r with
  | Some d => d !! "token"
  | None => None
  end.

(** The document that [register] hands to [User.create] for a body that it
    accepts. *)
Definition registerDocument (hashPassword : string -> string)
    (newObjectId : list User.t -> ObjectId) (users : list User.t)
    (b : RegisterBody.t) : User.t :=
  create hashPassword newObjectId users
    (validator.trim (nullish (RegisterBody.first_name b) ""))
    (validator.trim (nullish (RegisterBody.last_name b) ""))
    (registerEmail b)
    (validator.trim (nullish (RegisterBody.password b) ""))
    (nullish (RegisterBody.role b) "user").

(** The login body with the email and the password of a registration. *)
Definition credentialsOf (b : RegisterBody.t) : LoginBody.t :=
  LoginBody.mk (RegisterBody.email b) (RegisterBody.password b).

(** ** Further concrete data, for running the handlers and the routers *)

Module Scenario.

(** The services of [Sample], with the mail server down: the verification
    token is stored on the document before the dispatch fails. *)
Definition mailDown : AuthService :=
  mkAuthService
    (matchPassword Sample.authService)
    (generateToken Sample.authService)
    (checkAdminAccess Sample.authService)
    (checkUserRoleInOrganization Sample.authService)
    (fun _ => None)
    (fun u => Some ("unsent:" +:+ User._id u, 86400000))
    (fun _ => MailError "connection refused").

(** The services of [Sample], with a mail service that issues a token of its
    own on every call. *)
Definition reissuing : AuthService :=
  mkAuthService
    (matchPassword Sample.authService)
    (generateToken Sample.authService)
    (checkAdminAccess Sample.authService)
    (checkUserRoleInOrganization Sample.authService)
    (fun u => Some ("fresh:" +:+ User._id u, 172800000))
    (tokenLeftByFailedMail Sample.authService)
    (sendPasswordResetEmail Sample.authService).

(** The services of [Sample], with access checks that refuse everyone. *)
Definition denying : AuthService :=
  mkAuthService
    (matchPassword Sample.authService)
    (generateToken Sample.authService)
    (fun _ => Some false)
    (fun _ _ => None)
    (sendVerificationEmail Sample.authService)
    (tokenLeftByFailedMail Sample.authService)
    (sendPasswordResetEmail Sample.authService).

Definition bob : RegisterBody.t :=
  RegisterBody.mk (Some " Bob ") (Some "Roe") (Some " Bob@Test.com ")
    (Some " Passw0rd! ") None.

Definition tokens : list Token.t :=
  [Token.mk "user-" "reset-a"; Token.mk "root" "reset-r"].

(** The value of a hexadecimal digit. *)
Definition hexValue (c : ascii) : option N :=
  let n := N_of_ascii c in
  if ((48 <=? n) && (n <=? 57))%N then Some (n - 48)%N
  else if ((65 <=? n) && (n <=? 70))%N then Some (n - 55)%N
  else if ((97 <=? n) && (n <=? 102))%N then Some (n - 87)%N
  else None.

(** A stand-in for [decodeURIComponent] on strings whose escapes are of
    units below 128: "%" must be followed by two hexadecimal digits. An
    escape of a higher unit, which the built-in reads as part of a UTF-8
    sequence, is refused here. *)
Fixpoint decodeURIComponent (s : string) : option string :=
  match s with
  | EmptyString => Some EmptyString
  | String "%" (String h (String l r)) =>
      match hexValue h, hexValue l, decodeURIComponent r with
      | Some a, Some b, Some d =>
          if (16 * a + b <? 128)%N
          then Some (String (ascii_of_N (16 * a + b)) d)
          else None
      | _, _, _ => None
      end
  | String "%" _ => None
  | String c r =>
      match decodeURIComponent r with
      | Some d => Some (String c d)
      | None => None
      end
  end.

(** A session token is valid when it is the one generated for "root". *)
Definition verifyToken (tok : string) : option ObjectId :=
  if String.eqb tok "jwt:root" then Some "root" else None.

Definition withToken (m : Method) (url : string) (tok : string) : Request :=
  mkRequest m url (<["token" := tok]> ∅) ∅ None.

(** The session of "root", as the authentication middleware leaves it. *)
Definition rootSession (cookies : gmap string string) : Request :=
  mkRequest GET "/api/v1/auth/me" cookies ∅ (Some "root").

(** [protect] by [verifyToken]; [checkPermission] grants every permission to
    "root" and none to anyone else. *)
Definition runMiddleware (m : FacilityRoutes.Middleware) (req : Request)
  : Request + Z :=
  match m with
  | FacilityRoutes.protect =>
      match UserRoutes.runProtect verifyToken req with
      | Some req' => inl req'
      | None => inr 401
      end
  | FacilityRoutes.checkPermission _ =>
      match reqUserId req with
      | Some "root" => inl req
      | _ => inr 403
      end
  end.

End Scenario.

(** * Properties *)

(** ** Lookups *)

Lemma find_first {A : Type} (f : A -> bool) (l : list A) (x : A) :
  x ∈ l -> f x = true -> exists y, List.find f l = Some y /\ f y = true.
Proof.
  induction 1 as [x l | x y l Hin IH]; intros Hf; simpl.
  - rewrite Hf. eauto.
  - destruct (f y) eqn:Hy; eauto.
Qed.

Lemma find_absent {A : Type} (f : A -> bool) (l : list A) :
  (forall x, x ∈ l -> f x = false) -> List.find f l = None.
Proof.
  induction l as [| a l IH]; intros H; simpl; [done |].
  rewrite (H a) by constructor. apply IH. intros x Hx. apply H. by constructor.
Qed.

Lemma findOneCollation_Some email users u :
  UserModel.findOneCollation email users = Some u ->
  u ∈ users /\ sameUpToCase (User.email u) email.
Proof.
  unfold UserModel.findOneCollation, collationEq, sameUpToCase. intros H.
  apply List.find_some in H as [Hin Heq].
  split; [by apply list_elem_of_In | by apply String.eqb_eq].
Qed.

Lemma findOneCollation_found email users u :
  u ∈ users -> sameUpToCase (User.email u) email ->
  exists v, UserModel.findOneCollation email users = Some v.
Proof.
  intros Hin Hcase. unfold UserModel.findOneCollation.
  destruct (find_first (fun w => collationEq (User.email w) email) users u Hin)
    as (v & Hv & _); [| by eauto].
  unfold collationEq. by apply String.eqb_eq.
Qed.

(** ** Login and admin login *)

Section LoginProperties.

Variable isEmail : string -> bool.
Variable authService : AuthService.
Variable NODE_ENV : option string.

Lemma loginInputOk_inv b :
  loginInputOk isEmail b = true ->
  isEmptyString (loginEmail b) || isEmptyString (loginPassword b) = false
  /\ negb (isEmail (loginEmail b)) = false.
Proof.
  unfold loginInputOk. intros H. apply andb_true_iff in H as [H1 H2].
  apply negb_true_iff in H1. rewrite H2. done.
Qed.

Ltac validated H :=
  apply loginInputOk_inv in H as [?Hempty ?Hformat];
  rewrite ?Hempty, ?Hformat.

(** C3, as amended. Two login requests that both pass the input validation,
    one with an email that matches no stored user and one with an email that
    matches a stored user but with a wrong password, get the same answer:
    status 401 with the message "Invalid credentials". *)
Theorem login_uniform_failure users b1 b2 u :
  loginInputOk isEmail b1 = true ->
  loginInputOk isEmail b2 = true ->
  UserModel.findOneCollation (loginEmail b1) users = None ->
  UserModel.findOneCollation (loginEmail b2) users = Some u ->
  matchPassword authService (loginPassword b2) u = false ->
  login isEmail authService NODE_ENV users b1 = fail "Invalid credentials" 401
  /\ login isEmail authService NODE_ENV users b2
     = login isEmail authService NODE_ENV users b1.
Proof.
  intros Hok1 Hok2 Hnone Hsome Hwrong.
  assert (H1 : login isEmail authService NODE_ENV users b1
               = fail "Invalid credentials" 401).
  { unfold login. fold (loginEmail b1). fold (loginPassword b1). cbv zeta.
    validated Hok1. by rewrite Hnone. }
  split; [exact H1 |]. rewrite H1.
  unfold login. fold (loginEmail b2). fold (loginPassword b2). cbv zeta.
  validated Hok2. by rewrite Hsome, Hwrong.
Qed.

(** The ways in which [adminLogin] ends, by the stage that decides. *)
Lemma adminLogin_cases users b :
  let r := adminLogin isEmail authService NODE_ENV users b in
  (loginInputOk isEmail b = false /\ statusOf r = Some 400)
  \/ (loginInputOk isEmail b = true /\
      ((UserModel.findOneCollation (loginEmail b) users = None
        /\ statusOf r = Some 401)
       \/ exists u,
            UserModel.findOneCollation (loginEmail b) users = Some u
            /\ ((matchPassword authService (loginPassword b) u = false
                 /\ statusOf r = Some 401)
                \/ (matchPassword authService (loginPassword b) u = true
                    /\ ((checkAdminAccess authService (User._id u) = None
                         /\ statusOf r = Some 500)
                        \/ (checkAdminAccess authService (User._id u) = Some false
                            /\ statusOf r = Some 403)
                        \/ (checkAdminAccess authService (User._id u) = Some true
                            /\ statusOf r = Some 200
                            /\ cookiesOf r =
                                 [mkCookie "admin_token" (generateToken authService u)
                                    (mkCookieOptions true (Some (production NODE_ENV))
                                       "lax" (Some "/") (Some thirtyDays) None);
                                  mkCookie "token" (generateToken authService u)
                                    (mkCookieOptions true (Some (production NODE_ENV))
                                       "lax" (Some "/") (Some thirtyDays) None)])))))).
Proof.
  unfold adminLogin, loginInputOk.
  fold (loginEmail b). fold (loginPassword b). cbv zeta.
  destruct (isEmptyString (loginEmail b) || isEmptyString (loginPassword b));
    [left; done |].
  destruct (isEmail (loginEmail b)); [| left; done].
  right. split; [done |]. simpl negb.
  destruct (UserModel.findOneCollation (loginEmail b) users) as [u |];
    [| left; done].
  right. exists u. split; [done |].
  destruct (matchPassword authService (loginPassword b) u); [| left; done].
  right. split; [done |].
  destruct (checkAdminAccess authService (User._id u)) as [[|] |]; simpl; auto.
Qed.

(** C2. Admin login answers 200 only if the supplied credentials match a
    stored user and that user holds the admin dashboard permission; when the
    credentials are supplied well formed and match a stored user but the
    permission check returns false, the answer is 403. *)
Theorem adminLogin_requires_permission users b :
  (statusOf (adminLogin isEmail authService NODE_ENV users b) = Some 200 ->
   exists u,
     UserModel.findOneCollation (loginEmail b) users = Some u
     /\ matchPassword authService (loginPassword b) u = true
     /\ checkAdminAccess authService (User._id u) = Some true
     /\ exists c, c ∈ cookiesOf (adminLogin isEmail authService NODE_ENV users b)
                  /\ cookieName c = "admin_token")
  /\ (forall u,
        loginInputOk isEmail b = true ->
        UserModel.findOneCollation (loginEmail b) users = Some u ->
        matchPassword authService (loginPassword b) u = true ->
        checkAdminAccess authService (User._id u) = Some false ->
        statusOf (adminLogin isEmail authService NODE_ENV users b) = Some 403).
Proof.
  pose proof (adminLogin_cases users b) as H. cbv zeta in H. split.
  - intros H200. rewrite H200 in H.
    destruct H as [[_ ?] | [_ [[_ ?] | (u & Hu & [[_ ?] | [Hm [[_ ?] | [[_ ?] | (Ha & _ & Hc)]]]])]]];
      try discriminate.
    exists u. repeat split; try done.
    rewrite Hc. eexists. split; [constructor | reflexivity].
  - intros u Hok Hu Hm Ha. rewrite Hok, Hu in H.
    destruct H as [[? _] | [_ [[? _] | (v & Hv & H)]]]; try discriminate.
    injection Hv as <-. rewrite Hm, Ha in H.
    destruct H as [[? _] | [_ [[? _] | [[_ ?] | [? _]]]]]; try discriminate.
    done.
Qed.

(** C9. A successful admin login sets two cookies, [admin_token] and then
    [token], both to the one session token generated for the user, each
    HTTP-only with a [maxAge] of 30 days. *)
Theorem adminLogin_sets_both_cookies users b :
  statusOf (adminLogin isEmail authService NODE_ENV users b) = Some 200 ->
  exists u c1 c2,
    UserModel.findOneCollation (loginEmail b) users = Some u
    /\ cookiesOf (adminLogin isEmail authService NODE_ENV users b) = [c1; c2]
    /\ sessionCookie "admin_token" (generateToken authService u) c1
    /\ sessionCookie "token" (generateToken authService u) c2.
Proof.
  intros H200. pose proof (adminLogin_cases users b) as H. cbv zeta in H.
  rewrite H200 in H.
  destruct H as [[_ ?] | [_ [[_ ?] | (u & Hu & [[_ ?] | [Hm [[_ ?] | [[_ ?] | (Ha & _ & Hc)]]]])]]];
    try discriminate.
  exists u. do 2 eexists. split; [done |]. split; [exact Hc |].
  unfold sessionCookie. simpl. done.
Qed.

End LoginProperties.

(** ** Normalisation of strings *)

Lemma isWhitespace_lowerCodeUnit c :
  isWhitespace (lowerCodeUnit c) = isWhitespace c.
Proof. destruct c as [[] [] [] [] [] [] [] []]; reflexivity. Qed.

Lemma lowerCodeUnit_idem c : lowerCodeUnit (lowerCodeUnit c) = lowerCodeUnit c.
Proof. destruct c as [[] [] [] [] [] [] [] []]; reflexivity. Qed.

Lemma toLowerCase_idem s : toLowerCase (toLowerCase s) = toLowerCase s.
Proof.
  induction s as [| c r IH]; simpl; [done |].
  by rewrite lowerCodeUnit_idem, IH.
Qed.

Lemma ltrim_toLowerCase s :
  validator.ltrim (toLowerCase s) = toLowerCase (validator.ltrim s).
Proof.
  induction s as [| c r IH]; simpl; [done |].
  rewrite isWhitespace_lowerCodeUnit. by destruct (isWhitespace c).
Qed.

Lemma rtrim_toLowerCase s :
  validator.rtrim (toLowerCase s) = toLowerCase (validator.rtrim s).
Proof.
  induction s as [| c r IH]; simpl; [done |].
  rewrite IH, isWhitespace_lowerCodeUnit.
  destruct (validator.rtrim r); simpl; [by destruct (isWhitespace c) | done].
Qed.

Lemma trim_toLowerCase s :
  validator.trim (toLowerCase s) = toLowerCase (validator.trim s).
Proof.
  unfold validator.trim. by rewrite ltrim_toLowerCase, rtrim_toLowerCase.
Qed.

Lemma rtrim_idem s : validator.rtrim (validator.rtrim s) = validator.rtrim s.
Proof.
  induction s as [| c r IH]; simpl; [done |].
  destruct (validator.rtrim r) as [| d r'] eqn:Hr.
  - destruct (isWhitespace c) eqn:Hc; simpl; [done | by rewrite Hc].
  - change (validator.rtrim (String c (String d r')))
      with (match validator.rtrim (String d r') with
            | EmptyString =>
                if isWhitespace c then EmptyString else String c EmptyString
            | String d' r'' => String c (String d' r'')
            end).
    by rewrite IH.
Qed.

Lemma rtrim_head c r :
  isWhitespace c = false ->
  exists r', validator.rtrim (String c r) = String c r'.
Proof.
  intros Hc. simpl. destruct (validator.rtrim r); rewrite ?Hc; eauto.
Qed.

Lemma ltrim_rtrim_ltrim s :
  validator.ltrim (validator.rtrim (validator.ltrim s))
  = validator.rtrim (validator.ltrim s).
Proof.
  induction s as [| c r IH]; [done |].
  cbn [validator.ltrim]. destruct (isWhitespace c) eqn:Hc; [exact IH |].
  destruct (rtrim_head c r Hc) as [r' ->]. simpl. by rewrite Hc.
Qed.

Lemma trim_idem s : validator.trim (validator.trim s) = validator.trim s.
Proof.
  unfold validator.trim. by rewrite ltrim_rtrim_ltrim, rtrim_idem.
Qed.

(** A string that differs from a trimmed one in letter case only is
    normalised to the lower-case form of that string. *)
Lemma normalise_sameUpToCase e s :
  sameUpToCase e s -> trimmed s ->
  toLowerCase (validator.trim e) = toLowerCase s.
Proof.
  unfold sameUpToCase, trimmed. intros Hcase Htrim.
  by rewrite <- trim_toLowerCase, Hcase, trim_toLowerCase, Htrim.
Qed.

(** ** Registration *)

Section RegisterProperties.

Variable isEmail : string -> bool.
Variable authService : AuthService.
Variable hashPassword : string -> string.
Variable newObjectId : list User.t -> ObjectId.

Lemma registerInputOk_inv b :
  registerInputOk isEmail b = true ->
  isEmptyString (validator.trim (nullish (RegisterBody.first_name b) ""))
  || isEmptyString (validator.trim (nullish (RegisterBody.last_name b) ""))
  || isEmptyString (registerEmail b)
  || isEmptyString (validator.trim (nullish (RegisterBody.password b) "")) = false
  /\ negb (isEmail (registerEmail b)) = false.
Proof.
  unfold registerInputOk. intros H. apply andb_true_iff in H as [H1 H2].
  apply negb_true_iff in H1. rewrite H2. done.
Qed.

(** The document that [register] hands to [User.create]. *)
Lemma register_creates users b :
  registerInputOk isEmail b = true ->
  UserModel.findOneCollation (registerEmail b) users = None ->
  exists u,
    snd (register isEmail authService hashPassword newObjectId users b)
    = (users ++ [u])%list
    /\ User.email u = registerEmail b
    /\ User.role u = nullish (RegisterBody.role b) "user".
Proof.
  intros Hok Hnone. apply registerInputOk_inv in Hok as [H1 H2].
  unfold register. fold (registerEmail b). cbv zeta.
  rewrite H1, H2, Hnone.
  destruct (sendVerificationEmail authService _) as [[tok exp] |]; simpl;
    eexists; (split; [reflexivity |]); [done |].
  unfold afterFailedMail.
  by destruct (tokenLeftByFailedMail authService _) as [[tok exp] |].
Qed.

(** C1, as amended. A registration that passes the validation and the
    duplicate-email check adds one user to the collection, whose role is the
    role that the request body supplies, and "user" when the body supplies
    none. *)
Theorem register_role users b :
  registerInputOk isEmail b = true ->
  UserModel.findOneCollation (registerEmail b) users = None ->
  exists u,
    snd (register isEmail authService hashPassword newObjectId users b)
    = (users ++ [u])%list
    /\ User.role u = match RegisterBody.role b with
                     | Some r => r
                     | None => "user"
                     end.
Proof.
  intros Hok Hnone.
  destruct (register_creates users b Hok Hnone) as (u & Hu & _ & Hrole).
  exists u. by split.
Qed.

(** C4, as amended. When a stored user has an email without surrounding
    whitespace, a registration whose email differs from it in letter case
    only is refused with status 400 and the collection is left as it was;
    the message is "Email already registered" when the request passes the
    input validation. *)
Theorem register_duplicate_email users u b e :
  u ∈ users ->
  RegisterBody.email b = Some e ->
  sameUpToCase e (User.email u) ->
  trimmed (User.email u) ->
  let r := register isEmail authService hashPassword newObjectId users b in
  statusOf (fst r) = Some 400
  /\ snd r = users
  /\ (registerInputOk isEmail b = true ->
      errorOf (fst r) = Some "Email already registered").
Proof.
  intros Hin He Hcase Htrim r.
  assert (Hdup : exists v,
             UserModel.findOneCollation (registerEmail b) users = Some v).
  { apply (findOneCollation_found _ _ u Hin).
    unfold sameUpToCase, registerEmail. rewrite He. simpl nullish.
    rewrite toLowerCase_idem. symmetry. by apply normalise_sameUpToCase. }
  destruct Hdup as [v Hv]. subst r.
  unfold register, registerInputOk. fold (registerEmail b). cbv zeta.
  destruct (_ || _ || _ || _); [by repeat split |].
  destruct (isEmail (registerEmail b)); simpl; [| by repeat split].
  rewrite Hv. by repeat split.
Qed.

(** Registration keeps stored emails unique up to letter case and free of
    surrounding whitespace. *)
Lemma register_keeps_invariant users b :
  emailsUnique users ->
  Forall (fun u => trimmed (User.email u)) users ->
  let users' := snd (register isEmail authService hashPassword newObjectId users b) in
  emailsUnique users' /\ Forall (fun u => trimmed (User.email u)) users'.
Proof.
  intros Huniq Htrim users'. subst users'.
  destruct (registerInputOk isEmail b) eqn:Hok;
    [destruct (UserModel.findOneCollation (registerEmail b) users) eqn:Hfind |].
  - apply registerInputOk_inv in Hok as [H1 H2].
    unfold register. fold (registerEmail b). cbv zeta.
    by rewrite H1, H2, Hfind.
  - destruct (register_creates users b Hok Hfind) as (u & -> & Hmail & _).
    split.
    + unfold emailsUnique. rewrite map_app. simpl.
      apply NoDup_app. split; [exact Huniq |].
      split; [| apply NoDup_singleton].
      intros x Hx Hx'. apply list_elem_of_singleton in Hx'. subst x.
      apply list_elem_of_fmap in Hx as (w & Hw & Hin).
      apply List.find_none with (x := w) in Hfind; [| by apply list_elem_of_In].
      unfold collationEq in Hfind. apply String.eqb_neq in Hfind.
      apply Hfind. by rewrite <- Hw, Hmail.
    + apply Forall_app. split; [exact Htrim |].
      apply Forall_singleton. rewrite Hmail. unfold trimmed, registerEmail.
      by rewrite <- trim_toLowerCase, trim_idem.
  - unfold registerInputOk in Hok. unfold register.
    fold (registerEmail b). cbv zeta.
    destruct (_ || _ || _ || _); [done |].
    simpl in Hok. by rewrite Hok.
Qed.

End RegisterProperties.

(** ** Email verification *)

Lemma isEmptyString_false s : s <> "" -> isEmptyString s = false.
Proof. by destruct s. Qed.

Lemma truthy_Some s : s <> "" -> truthy (Some s) = true.
Proof. intros H. unfold truthy. by rewrite isEmptyString_false. Qed.

Lemma findById_id id users u :
  UserModel.findById id users = Some u -> User._id u = id.
Proof.
  unfold UserModel.findById. intros H.
  apply List.find_some in H as [_ H]. by apply String.eqb_eq.
Qed.

(** After [save], the lookup by id yields the saved document. *)
Lemma findById_save id users u u' :
  UserModel.findById id users = Some u ->
  User._id u' = User._id u ->
  UserModel.findById id (UserModel.save u' users) = Some u'.
Proof.
  intros Hfind Hid. pose proof (findById_id _ _ _ Hfind) as Hu.
  rewrite <- Hid in Hu. clear Hid. revert Hfind. unfold UserModel.findById.
  induction users as [| v rest IH]; simpl; [done |].
  rewrite Hu.
  destruct (String.eqb (User._id v) id) eqn:Hv; intros Hfind; simpl.
  - by rewrite Hu, String.eqb_refl.
  - rewrite Hv. by apply IH.
Qed.

(** A call for a user whose stored token is cleared is refused. *)
Lemma verifyEmail_cleared now users u t id :
  t <> "" -> id <> "" ->
  UserModel.findById id users = Some u ->
  User.verificationToken u = None ->
  verifyEmail now users (Some t) (Some id)
  = (fail "Invalid or expired token" 400, users).
Proof.
  intros Ht Hid Hfind Hnone. unfold verifyEmail.
  rewrite !truthy_Some by done. simpl. by rewrite Hfind, Hnone.
Qed.

(** C5. A first call with the matching token, before its expiry, answers 200,
    sets the verified flag of the user and clears the stored token and its
    expiry; every later call that presents the same token, at whatever time,
    is refused with status 400 and changes nothing. *)
Theorem verifyEmail_once now later users u t id :
  t <> "" -> id <> "" ->
  UserModel.findById id users = Some u ->
  User.verificationToken u = Some t ->
  pastExpiry now (User.verificationTokenExpires u) = false ->
  let first := verifyEmail now users (Some t) (Some id) in
  let second := verifyEmail later (snd first) (Some t) (Some id) in
  statusOf (fst first) = Some 200
  /\ (exists u',
        UserModel.findById id (snd first) = Some u'
        /\ User.isVerified u' = true
        /\ User.verificationToken u' = None
        /\ User.verificationTokenExpires u' = None)
  /\ statusOf (fst second) = Some 400
  /\ snd second = snd first.
Proof.
  intros Ht Hid Hfind Htok Hexp first second.
  assert (Hfirst : first
                   = (Sent (mkResponse 200 []
                        (<["success" := JBool true]>
                           (<["message" := JStr "Email verified successfully!"]> ∅))),
                      UserModel.save (markVerified u) users)).
  { subst first. unfold verifyEmail. rewrite !truthy_Some by done. simpl.
    rewrite Hfind, Htok, Hexp. simpl. by rewrite String.eqb_refl. }
  assert (Hsaved : UserModel.findById id (snd first) = Some (markVerified u)).
  { rewrite Hfirst. simpl. by apply findById_save with (u := u). }
  subst second.
  rewrite (verifyEmail_cleared later (snd first) (markVerified u) t id)
    by done.
  rewrite Hfirst. simpl. split; [done |]. split; [| done].
  exists (markVerified u). rewrite Hfirst in Hsaved. done.
Qed.

(** ** Forgotten password *)

Lemma toLowerCase_empty s : toLowerCase s = "" -> s = "".
Proof. by destruct s. Qed.

Lemma emailsUnique_inj users x y :
  emailsUnique users -> x ∈ users -> y ∈ users ->
  sameUpToCase (User.email x) (User.email y) -> x = y.
Proof.
  unfold emailsUnique, sameUpToCase.
  induction users as [| v rest IH]; simpl; intros Huniq Hx Hy Hcase.
  - by apply elem_of_nil in Hx.
  - apply NoDup_cons in Huniq as [Hv Huniq].
    apply elem_of_cons in Hx as [-> | Hx]; apply elem_of_cons in Hy as [-> | Hy];
      [done | | | by apply IH].
    + exfalso. apply Hv. rewrite Hcase.
      apply (list_elem_of_fmap_2 (fun u => toLowerCase (User.email u))). exact Hy.
    + exfalso. apply Hv. rewrite <- Hcase.
      apply (list_elem_of_fmap_2 (fun u => toLowerCase (User.email u))). exact Hx.
Qed.

(** C10. [forgotPassword] looks the user up by the email exactly as the
    request carries it: when stored emails are unique up to letter case, a
    request whose email differs from a stored user's email in letter case
    only is answered 404 and no reset token is touched, while the collation
    lookup of [register] and [login] finds a user for the same string. *)
Theorem forgotPassword_exact_match authService users tokens u e :
  emailsUnique users ->
  u ∈ users ->
  sameUpToCase e (User.email u) ->
  e <> User.email u ->
  forgotPassword authService users tokens (Some e)
  = (fail "User not found" 404, tokens)
  /\ UserModel.findOne e users = None
  /\ exists v, UserModel.findOneCollation e users = Some v.
Proof.
  intros Huniq Hin Hcase Hne.
  assert (He : e <> "").
  { intros ->. apply Hne. symmetry. apply toLowerCase_empty.
    symmetry. exact Hcase. }
  assert (Hnone : UserModel.findOne e users = None).
  { apply find_absent. intros x Hx. apply String.eqb_neq. intros Hmail.
    apply Hne. rewrite <- Hmail. f_equal.
    apply (emailsUnique_inj users); try done.
    unfold sameUpToCase. by rewrite Hmail. }
  split; [| split; [exact Hnone |]].
  - unfold forgotPassword. rewrite truthy_Some by done. simpl.
    by rewrite Hnone.
  - apply (findOneCollation_found _ _ u Hin). by symmetry.
Qed.

(** ** Logout *)

(** C7. Whatever the request carries, [logout] answers 200 with
    [success: true] and sets the three cookies [token], [admin_token] and
    [org_token], each to the empty string with an expiry at the epoch. *)
Theorem logout_clears_all_cookies (req : Request) :
  exists c1 c2 c3,
    cookiesOf (logout req) = [c1; c2; c3]
    /\ clearedCookie "token" c1
    /\ clearedCookie "admin_token" c2
    /\ clearedCookie "org_token" c3
    /\ statusOf (logout req) = Some 200
    /\ (exists res, logout req = Sent res
                    /\ body res !! "success" = Some (JBool true)).
Proof.
  do 3 eexists. split; [reflexivity |].
  unfold clearedCookie. simpl. repeat split.
  eexists. split; [reflexivity |]. by vm_compute.
Qed.

(** ** What the responses show of a user *)

Lemma toObject_verificationToken u :
  delete "password" (User.toObject u) !! "verificationToken"
  = JStr <$> User.verificationToken u.
Proof.
  unfold User.toObject, setOptional.
  destruct (User.verificationToken u), (User.verificationTokenExpires u);
    by simplify_map_eq.
Qed.

Lemma toObject_without_password u :
  delete "password" (User.toObject u) !! "password" = None.
Proof. apply lookup_delete_eq. Qed.

(** The user object of a successful [login] is the stored document less its
    password: the pending verification token stays in it. *)
Lemma login_user_object isEmail authService NODE_ENV users b res :
  login isEmail authService NODE_ENV users b = Sent res ->
  exists u,
    UserModel.findOneCollation (loginEmail b) users = Some u
    /\ dataUser (Sent res) = Some (delete "password" (User.toObject u)).
Proof.
  unfold login. fold (loginEmail b). fold (loginPassword b). cbv zeta.
  destruct (_ || _); [done |].
  destruct (negb (isEmail (loginEmail b))); [done |].
  destruct (UserModel.findOneCollation (loginEmail b) users) as [u |]; [| done].
  destruct (negb (matchPassword authService (loginPassword b) u)); [done |].
  intros [= <-]. exists u. split; [done |].
  unfold dataUser. simpl. by simplify_map_eq.
Qed.

(** [getMe] strips the password and both verification fields. *)
Lemma getMe_hides_secrets authService users req res :
  getMe authService users req = Sent res ->
  exists obj,
    dataOf (Sent res) = Some obj
    /\ obj !! "password" = None
    /\ obj !! "verificationToken" = None
    /\ obj !! "verificationTokenExpires" = None.
Proof.
  unfold getMe.
  destruct (negb (truthy (reqUserId req))); [done |].
  destruct (UserModel.findById _ users) as [u |]; [| done].
  destruct (truthy (reqCookies req !! "admin_token"));
    [destruct (checkAdminAccess authService (User._id u)) as [[|] |]; try done |];
    (destruct (truthy (reqCookies req !! "org_token")
               && truthy (reqParams req !! "organizationId"));
     [destruct (checkUserRoleInOrganization authService _ _) as [[|] |];
      try done |]);
    intros [= <-]; exists (selectPublic u);
    (split; [unfold dataOf; simpl; by simplify_map_eq |]);
    unfold selectPublic; by simplify_map_eq.
Qed.

(** C6 fails on the code. A login with the right password for a user whose
    email is not yet verified answers 200 with a user object that has no
    password but does carry the pending verification token and its expiry. *)
Theorem login_exposes_verification_token :
  let r := Sample.login Sample.users
             (LoginBody.mk (Some "a@test.com") (Some "Passw0rd!")) in
  statusOf r = Some 200
  /\ exists obj,
       dataUser r = Some obj
       /\ obj !! "password" = None
       /\ obj !! "verificationToken" = Some (JStr "verify:user-")
       /\ obj !! "verificationTokenExpires" = Some (JNum 86400000).
Proof.
  cbv zeta. split; [by vm_compute |].
  eexists. split; [by vm_compute |]. by vm_compute.
Qed.

(** ** The admin route for one user *)

Section RouteProperties.

Import UserRoutes.

Variable decodeURIComponent : string -> option string.
Variable verifyToken : string -> option ObjectId.

Lemma pattern_admin : pattern "/admin" = [Lit "admin"].
Proof. reflexivity. Qed.

Lemma pattern_userId_admin :
  pattern "/:userId/admin" = [Param "userId"; Lit "admin"].
Proof. reflexivity. Qed.

(** A path that the layer of "/:userId/admin" matches has two segments, so
    the layer of "/admin" does not match it. *)
Lemma matchLayer_userId_admin url :
  matchLayer decodeURIComponent "/:userId/admin" url = Hit ->
  matchLayer decodeURIComponent "/admin" url = Miss.
Proof.
  unfold matchLayer. rewrite pattern_admin, pattern_userId_admin.
  destruct (pathSegments url) as [[| a [| b ss]] |];
    cbn [matchSegments]; rewrite ?andb_false_r; done.
Qed.

Lemma splitPath_segment s r :
  noSlash s = true -> splitPath (s +:+ String "/"%char r) = s :: splitPath r.
Proof.
  induction s as [| c s IH]; simpl; [done |].
  intros H. apply andb_true_iff in H as [Hc Hs].
  apply negb_true_iff in Hc. by rewrite Hc, IH.
Qed.

Lemma splitPath_nonempty s : splitPath s <> [].
Proof.
  destruct s as [| c r]; simpl; [done |].
  destruct (Ascii.eqb c "/"%char); [done |]. by destruct (splitPath r).
Qed.

(** Cutting a string at its "/" loses nothing: the pieces have no "/" and
    give the string back when they are joined. *)
Lemma splitPath_joinPath s :
  joinPath (splitPath s) = s /\ Forall (fun p => noSlash p = true) (splitPath s).
Proof.
  induction s as [| c r [IHj IHf]]; simpl; [by repeat constructor |].
  destruct (Ascii.eqb c "/"%char) eqn:Hc.
  - apply Ascii.eqb_eq in Hc. subst c. split; [| by constructor].
    pose proof (splitPath_nonempty r) as Hne.
    destruct (splitPath r) as [| p ps]; [done |]. simpl in *. by rewrite IHj.
  - pose proof (splitPath_nonempty r) as Hne.
    destruct (splitPath r) as [| p ps]; [done |].
    apply Forall_cons in IHf as [Hp Hps]. split.
    + destruct ps as [| q qs]; simpl in *; by rewrite <- IHj.
    + constructor; [| done]. simpl. by rewrite Hc, Hp.
Qed.

(** Every path "/" + id + "/admin", with or without a "/" at its end, whose
    id is not empty, has no "/" and decodes, is matched by the layer of
    "/:userId/admin". *)
Lemma matchLayer_userId_admin_paths uid :
  uid <> "" -> noSlash uid = true -> decodes decodeURIComponent uid = true ->
  matchLayer decodeURIComponent "/:userId/admin"
    ("/" +:+ uid +:+ "/admin") = Hit
  /\ matchLayer decodeURIComponent "/:userId/admin"
       ("/" +:+ uid +:+ "/admin/") = Hit.
Proof.
  intros Hne Hns Hdec. unfold matchLayer, pathSegments.
  rewrite pattern_userId_admin.
  change ("/" +:+ uid +:+ "/admin") with (String "/"%char (uid +:+ "/admin")).
  change ("/" +:+ uid +:+ "/admin/") with (String "/"%char (uid +:+ "/admin/")).
  cbn [splitPath Ascii.eqb Bool.eqb].
  change (uid +:+ "/admin") with (uid +:+ String "/"%char "admin").
  change (uid +:+ "/admin/") with (uid +:+ String "/"%char "admin/").
  rewrite !splitPath_segment by done.
  destruct uid as [| c uid']; [done |].
  split; vm_compute splitPath; cbn [dropTrailingSlash isEmptyString];
    cbn [matchSegments matchSegment captures forallb isEmptyString negb andb];
    rewrite Hdec; reflexivity.
Qed.

(** C8. The route GET /:userId/admin is registered with the controller
    function alone, without [protect]; every GET request that the layer of
    this route matches (a path of one non-empty segment that decodes,
    followed by "/admin") reaches [getUserByIdAdmin], whatever cookies it
    carries, and it arrives there as it came: no identity is attached to
    it. *)
Theorem getUserByIdAdmin_unprotected (req : Request) :
  reqMethod req = GET ->
  matchLayer decodeURIComponent "/:userId/admin" (reqPath req) = Hit ->
  get "/:userId/admin" [getUserByIdAdmin] ∈ router
  /\ (forall r, r ∈ router -> routeMethod r = GET ->
                routePath r = "/:userId/admin" -> protect ∉ routeChain r)
  /\ dispatch decodeURIComponent verifyToken router req
     = Reaches getUserByIdAdmin req.
Proof.
  intros Hget Hpath. split; [| split].
  - unfold router. apply elem_of_cons. right. apply elem_of_cons. by left.
  - intros r Hr Hm Hp. unfold router in Hr.
    repeat (apply elem_of_cons in Hr as [-> | Hr]); try discriminate Hp;
      try discriminate Hm.
    + simpl. intros Hin. apply elem_of_cons in Hin as [? | Hin]; [done |].
      by apply elem_of_nil in Hin.
    + by apply elem_of_nil in Hr.
  - unfold dispatch, router. cbn [dispatchFrom routeMethod routePath get].
    rewrite (matchLayer_userId_admin _ Hpath), Hpath, Hget. reflexivity.
Qed.

End RouteProperties.

(** ** The statements on the sample deployment *)

Lemma sample_users_unique : emailsUnique Sample.users.
Proof.
  unfold emailsUnique. apply (bool_decide_unpack _). by vm_compute.
Qed.

Lemma alice_stored : Sample.alice ∈ Sample.users.
Proof. unfold Sample.users. apply elem_of_cons. by left. Qed.

(** C1 fails as it is stated: a registration that passes the validation and
    the duplicate-email check and names the role "admin" creates a user
    whose role is "admin". *)
Lemma register_role_counterexample :
  let b := RegisterBody.mk (Some "Bob") (Some "Roe") (Some "bob@test.com")
             (Some "Passw0rd!") (Some "admin") in
  registerInputOk Sample.isEmail b = true
  /\ UserModel.findOneCollation (registerEmail b) Sample.users = None
  /\ exists u,
       snd (Sample.register Sample.users b) = (Sample.users ++ [u])%list
       /\ User.role u = "admin"
       /\ User.role u <> "user".
Proof.
  cbv zeta. split; [by vm_compute |]. split; [by vm_compute |].
  eexists. split; [by vm_compute |]. split; [reflexivity | discriminate].
Qed.

Lemma register_role_witness :
  let b := RegisterBody.mk (Some "Bob") (Some "Roe") (Some " Bob@Test.com ")
             (Some "Passw0rd!") None in
  registerInputOk Sample.isEmail b = true
  /\ UserModel.findOneCollation (registerEmail b) Sample.users = None
  /\ exists u,
       snd (Sample.register Sample.users b) = (Sample.users ++ [u])%list
       /\ User.role u = "user".
Proof.
  cbv zeta. split; [by vm_compute |]. split; [by vm_compute |].
  apply (register_role Sample.isEmail Sample.authService Sample.hashPassword
           Sample.newObjectId Sample.users
           (RegisterBody.mk (Some "Bob") (Some "Roe") (Some " Bob@Test.com ")
              (Some "Passw0rd!") None)); by vm_compute.
Defined.

Lemma adminLogin_requires_permission_witness :
  let admin := LoginBody.mk (Some "Root@Test.com") (Some "S3cret") in
  let plain := LoginBody.mk (Some "a@test.com") (Some "Passw0rd!") in
  statusOf (Sample.adminLogin Sample.users admin) = Some 200
  /\ (exists u,
        UserModel.findOneCollation (loginEmail admin) Sample.users = Some u
        /\ matchPassword Sample.authService (loginPassword admin) u = true
        /\ checkAdminAccess Sample.authService (User._id u) = Some true
        /\ exists c, c ∈ cookiesOf (Sample.adminLogin Sample.users admin)
                     /\ cookieName c = "admin_token")
  /\ loginInputOk Sample.isEmail plain = true
  /\ UserModel.findOneCollation (loginEmail plain) Sample.users
     = Some Sample.alice
  /\ matchPassword Sample.authService (loginPassword plain) Sample.alice = true
  /\ checkAdminAccess Sample.authService (User._id Sample.alice) = Some false
  /\ statusOf (Sample.adminLogin Sample.users plain) = Some 403.
Proof.
  cbv zeta. split; [by vm_compute |]. split.
  - apply (proj1 (adminLogin_requires_permission Sample.isEmail
                    Sample.authService (Some "production") Sample.users
                    (LoginBody.mk (Some "Root@Test.com") (Some "S3cret")))).
    by vm_compute.
  - do 4 (split; [by vm_compute |]).
    apply (proj2 (adminLogin_requires_permission Sample.isEmail
                    Sample.authService (Some "production") Sample.users
                    (LoginBody.mk (Some "a@test.com") (Some "Passw0rd!")))
             Sample.alice); by vm_compute.
Defined.

(** C3 fails as it is stated: of two login requests, one with an email that
    matches no stored user and a blank password, the other with the email of
    a stored user and a wrong password, the first is answered 400 and the
    second 401. *)
Lemma login_uniform_failure_counterexample :
  let ghost := LoginBody.mk (Some "ghost@test.com") (Some "   ") in
  let wrong := LoginBody.mk (Some "a@test.com") (Some "guess") in
  UserModel.findOneCollation (loginEmail ghost) Sample.users = None
  /\ UserModel.findOneCollation (loginEmail wrong) Sample.users
     = Some Sample.alice
  /\ matchPassword Sample.authService (loginPassword wrong) Sample.alice = false
  /\ Sample.login Sample.users ghost
     = fail "Please provide an email and password" 400
  /\ Sample.login Sample.users wrong = fail "Invalid credentials" 401
  /\ statusOf (Sample.login Sample.users ghost)
     <> statusOf (Sample.login Sample.users wrong).
Proof.
  cbv zeta. do 5 (split; [by vm_compute |]). by vm_compute.
Qed.

Lemma login_uniform_failure_witness :
  let ghost := LoginBody.mk (Some "ghost@test.com") (Some "guess") in
  let wrong := LoginBody.mk (Some " A@Test.com") (Some "guess") in
  loginInputOk Sample.isEmail ghost = true
  /\ loginInputOk Sample.isEmail wrong = true
  /\ UserModel.findOneCollation (loginEmail ghost) Sample.users = None
  /\ UserModel.findOneCollation (loginEmail wrong) Sample.users
     = Some Sample.alice
  /\ matchPassword Sample.authService (loginPassword wrong) Sample.alice = false
  /\ Sample.login Sample.users ghost = fail "Invalid credentials" 401
  /\ Sample.login Sample.users wrong = Sample.login Sample.users ghost.
Proof.
  cbv zeta. do 5 (split; [by vm_compute |]).
  apply (login_uniform_failure Sample.isEmail Sample.authService
           (Some "production") Sample.users
           (LoginBody.mk (Some "ghost@test.com") (Some "guess"))
           (LoginBody.mk (Some " A@Test.com") (Some "guess"))
           Sample.alice); by vm_compute.
Defined.

(** C4 fails as it is stated: a registration with the email of a stored user
    in another letter case and without a first name is refused with the
    message "All fields are required". *)
Lemma register_duplicate_email_counterexample :
  let b := RegisterBody.mk None (Some "Doe") (Some "A@Test.com")
             (Some "Passw0rd!") None in
  Sample.alice ∈ Sample.users
  /\ sameUpToCase "A@Test.com" (User.email Sample.alice)
  /\ Sample.register Sample.users b
     = (fail "All fields are required" 400, Sample.users)
  /\ errorOf (fst (Sample.register Sample.users b))
     <> Some "Email already registered".
Proof.
  cbv zeta. split; [exact alice_stored |]. split; [by vm_compute |].
  split; [by vm_compute |]. by vm_compute.
Qed.

Lemma register_duplicate_email_witness :
  let b := RegisterBody.mk (Some "Al") (Some "Doe") (Some "A@Test.com")
             (Some "Passw0rd!") None in
  Sample.alice ∈ Sample.users
  /\ sameUpToCase "A@Test.com" (User.email Sample.alice)
  /\ trimmed (User.email Sample.alice)
  /\ registerInputOk Sample.isEmail b = true
  /\ statusOf (fst (Sample.register Sample.users b)) = Some 400
  /\ snd (Sample.register Sample.users b) = Sample.users
  /\ errorOf (fst (Sample.register Sample.users b))
     = Some "Email already registered".
Proof.
  cbv zeta. split; [exact alice_stored |]. do 3 (split; [by vm_compute |]).
  destruct (register_duplicate_email Sample.isEmail Sample.authService
              Sample.hashPassword Sample.newObjectId Sample.users Sample.alice
              (RegisterBody.mk (Some "Al") (Some "Doe") (Some "A@Test.com")
                 (Some "Passw0rd!") None)
              "A@Test.com" alice_stored eq_refl eq_refl eq_refl)
    as (Hstatus & Hstate & Hmessage).
  split; [exact Hstatus |]. split; [exact Hstate |].
  apply Hmessage. by vm_compute.
Defined.

Lemma verifyEmail_once_witness :
  let first := verifyEmail 1000 Sample.users (Some "verify:user-") (Some "user-") in
  let second := verifyEmail 2000 (snd first) (Some "verify:user-") (Some "user-") in
  UserModel.findById "user-" Sample.users = Some Sample.alice
  /\ User.verificationToken Sample.alice = Some "verify:user-"
  /\ pastExpiry 1000 (User.verificationTokenExpires Sample.alice) = false
  /\ statusOf (fst first) = Some 200
  /\ (exists u',
        UserModel.findById "user-" (snd first) = Some u'
        /\ User.isVerified u' = true
        /\ User.verificationToken u' = None
        /\ User.verificationTokenExpires u' = None)
  /\ statusOf (fst second) = Some 400
  /\ snd second = snd first.
Proof.
  cbv zeta. do 3 (split; [by vm_compute |]).
  apply (verifyEmail_once 1000 2000 Sample.users Sample.alice "verify:user-"
           "user-"); done.
Defined.

Lemma forgotPassword_exact_match_witness :
  emailsUnique Sample.users
  /\ Sample.alice ∈ Sample.users
  /\ sameUpToCase "A@Test.com" (User.email Sample.alice)
  /\ "A@Test.com" <> User.email Sample.alice
  /\ Sample.forgotPassword Sample.users [] (Some "A@Test.com")
     = (fail "User not found" 404, [])
  /\ UserModel.findOne "A@Test.com" Sample.users = None
  /\ exists v, UserModel.findOneCollation "A@Test.com" Sample.users = Some v.
Proof.
  split; [exact sample_users_unique |]. split; [exact alice_stored |].
  split; [by vm_compute |]. split; [discriminate |].
  apply (forgotPassword_exact_match Sample.authService Sample.users []
           Sample.alice "A@Test.com" sample_users_unique alice_stored);
    [by vm_compute | discriminate].
Defined.

Lemma getUserByIdAdmin_unprotected_witness :
  let req := Sample.noCookies GET "/42/admin" in
  reqMethod req = GET
  /\ UserRoutes.matchLayer Scenario.decodeURIComponent "/:userId/admin"
       (reqPath req) = UserRoutes.Hit
  /\ reqCookies req !! "token" = None
  /\ UserRoutes.dispatch Scenario.decodeURIComponent (fun _ => None)
       UserRoutes.router req
     = UserRoutes.Reaches UserRoutes.getUserByIdAdmin req.
Proof.
  cbv zeta. do 3 (split; [by vm_compute |]).
  apply (getUserByIdAdmin_unprotected Scenario.decodeURIComponent
           (fun _ => None) (Sample.noCookies GET "/42/admin"));
    by vm_compute.
Defined.

Lemma adminLogin_sets_both_cookies_witness :
  let b := LoginBody.mk (Some "root@test.com") (Some " S3cret ") in
  statusOf (Sample.adminLogin Sample.users b) = Some 200
  /\ exists u c1 c2,
       UserModel.findOneCollation (loginEmail b) Sample.users = Some u
       /\ cookiesOf (Sample.adminLogin Sample.users b) = [c1; c2]
       /\ sessionCookie "admin_token" (generateToken Sample.authService u) c1
       /\ sessionCookie "token" (generateToken Sample.authService u) c2.
Proof.
  cbv zeta. split; [by vm_compute |].
  apply (adminLogin_sets_both_cookies Sample.isEmail Sample.authService
           (Some "production") Sample.users
           (LoginBody.mk (Some "root@test.com") (Some " S3cret "))).
  by vm_compute.
Defined.

(** * Further properties of the handlers *)

(** ** Registration, and what follows it *)

Lemma find_app_fresh {A : Type} (f : A -> bool) (l : list A) (x : A) :
  List.find f l = None -> f x = true -> List.find f (l ++ [x]) = Some x.
Proof.
  induction l as [| a l IH]; simpl; intros Hnone Hx.
  - by rewrite Hx.
  - destruct (f a); [done | by apply IH].
Qed.

(** What [verifyEmail] does with the stored token, presented in time. *)
Lemma verifyEmail_accepts now users u t id :
  t <> "" -> id <> "" ->
  UserModel.findById id users = Some u ->
  User.verificationToken u = Some t ->
  pastExpiry now (User.verificationTokenExpires u) = false ->
  verifyEmail now users (Some t) (Some id)
  = (Sent (mkResponse 200 []
       (<["success" := JBool true]>
          (<["message" := JStr "Email verified successfully!"]> ∅))),
     UserModel.save (markVerified u) users).
Proof.
  intros Ht Hid Hfind Htok Hexp. unfold verifyEmail.
  rewrite !truthy_Some by done. simpl.
  rewrite Hfind, Htok, Hexp. simpl. by rewrite String.eqb_refl.
Qed.

Section RegistrationFlow.

Variable isEmail : string -> bool.
Variable authService : AuthService.
Variable hashPassword : string -> string.
Variable newObjectId : list User.t -> ObjectId.
Variable NODE_ENV : option string.

(** The collection after a registration that the validation and the
    duplicate check let through. *)
Lemma register_stores users b :
  registerInputOk isEmail b = true ->
  UserModel.findOneCollation (registerEmail b) users = None ->
  snd (register isEmail authService hashPassword newObjectId users b)
  = (users ++
       [match sendVerificationEmail authService
                (registerDocument hashPassword newObjectId users b) with
        | Some (tok, exp) =>
            withVerification (registerDocument hashPassword newObjectId users b)
              tok exp
        | None =>
            afterFailedMail authService
              (registerDocument hashPassword newObjectId users b)
        end])%list.
Proof.
  intros Hok Hnone. apply registerInputOk_inv in Hok as [H1 H2].
  unfold register, registerDocument. fold (registerEmail b). cbv zeta.
  rewrite H1, H2, Hnone.
  by destruct (sendVerificationEmail authService _) as [[tok exp] |].
Qed.

(** The fields of a stored registration that the verification mail does
    not touch, sent or not. *)
Lemma register_stored_fields users b :
  let doc := registerDocument hashPassword newObjectId users b in
  let u := match sendVerificationEmail authService doc with
           | Some (tok, exp) => withVerification doc tok exp
           | None => afterFailedMail authService doc
           end in
  User.email u = registerEmail b
  /\ User.password u
     = hashPassword (validator.trim (nullish (RegisterBody.password b) ""))
  /\ User.isVerified u = false
  /\ User._id u = newObjectId users.
Proof.
  cbv zeta. unfold afterFailedMail.
  destruct (sendVerificationEmail authService _) as [[tok exp] |]; [done |].
  by destruct (tokenLeftByFailedMail authService _) as [[tok exp] |].
Qed.

(** The three ways in which [register] ends. When the handler itself
    refuses the request, the error carries status 400 and the collection is
    left as it was. Otherwise exactly one user is appended, under the
    normalised email: either the answer is 201, or the verification mail was
    rejected and the handler ends on that rejection, without a response of
    its own and without taking the user back. *)
Theorem register_outcomes users b :
  let r := register isEmail authService hashPassword newObjectId users b in
  (exists err, fst r = Next err /\ statusCode err = 400 /\ snd r = users)
  \/ (exists u,
        snd r = (users ++ [u])%list
        /\ User.email u = registerEmail b
        /\ ((statusOf (fst r) = Some 201
             /\ sendVerificationEmail authService
                  (registerDocument hashPassword newObjectId users b) <> None)
            \/ (fst r = Thrown
                /\ sendVerificationEmail authService
                     (registerDocument hashPassword newObjectId users b) = None))).
Proof.
  cbv zeta. unfold register, registerDocument. fold (registerEmail b). cbv zeta.
  destruct (_ || _ || _ || _); [left; by eexists |].
  destruct (negb (isEmail _)); [left; by eexists |].
  destruct (UserModel.findOneCollation _ users); [left; by eexists |].
  right.
  destruct (sendVerificationEmail authService _) as [[tok exp] |] eqn:Hmail;
    simpl; eexists; (split; [reflexivity |]).
  - split; [done |]. by left.
  - split; [| by right]. unfold afterFailedMail.
    by destruct (tokenLeftByFailedMail authService _) as [[tok exp] |].
Qed.

(** Once a registration has stored its user, whether the verification mail
    went out or not, the same registration is refused as a duplicate and
    stores nothing more. *)
Theorem register_again_refused users b :
  registerInputOk isEmail b = true ->
  UserModel.findOneCollation (registerEmail b) users = None ->
  let users' := snd (register isEmail authService hashPassword newObjectId users b) in
  register isEmail authService hashPassword newObjectId users' b
  = (fail "Email already registered" 400, users').
Proof.
  intros Hok Hnone users'.
  destruct (register_creates isEmail authService hashPassword newObjectId
              users b Hok Hnone) as (u & Hu & Hmail & _).
  subst users'. rewrite Hu.
  assert (Hfound : UserModel.findOneCollation (registerEmail b) (users ++ [u])
                   = Some u).
  { apply find_app_fresh; [exact Hnone |].
    unfold collationEq. rewrite Hmail. apply String.eqb_refl. }
  apply registerInputOk_inv in Hok as [H1 H2].
  unfold register. fold (registerEmail b). cbv zeta.
  by rewrite H1, H2, Hfound.
Qed.

(** When the verification mail is rejected, the handler ends on that
    rejection without a response of its own, and the user created just
    before stays stored, unverified, under the normalised email: nothing is
    rolled back, whatever the mail service had stored before it failed. *)
Theorem register_mail_failure_keeps_user users b :
  registerInputOk isEmail b = true ->
  UserModel.findOneCollation (registerEmail b) users = None ->
  sendVerificationEmail authService
    (registerDocument hashPassword newObjectId users b) = None ->
  exists u,
    register isEmail authService hashPassword newObjectId users b
    = (Thrown, (users ++ [u])%list)
    /\ User.email u = registerEmail b
    /\ User.isVerified u = false.
Proof.
  intros Hok Hnone Hmail. apply registerInputOk_inv in Hok as [H1 H2].
  pose proof (register_stored_fields users b) as Hfields. cbv zeta in Hfields.
  rewrite Hmail in Hfields. destruct Hfields as (He & _ & Hv & _).
  exists (afterFailedMail authService
            (registerDocument hashPassword newObjectId users b)).
  split; [| by split].
  unfold register, registerDocument in *. fold (registerEmail b) in *.
  cbv zeta. by rewrite H1, H2, Hnone, Hmail.
Qed.

(** A user who has just registered can log in with the same email and
    password before the email is verified: the answer is 200 and the session
    token is the one generated for the new, unverified user. *)
Theorem register_then_login users b :
  hashAccepted authService hashPassword ->
  registerInputOk isEmail b = true ->
  UserModel.findOneCollation (registerEmail b) users = None ->
  let users' := snd (register isEmail authService hashPassword newObjectId users b) in
  let r := login isEmail authService NODE_ENV users' (credentialsOf b) in
  exists u,
    users' = (users ++ [u])%list
    /\ User.isVerified u = false
    /\ statusOf r = Some 200
    /\ dataToken r = Some (JStr (generateToken authService u)).
Proof.
  intros Hhash Hok Hnone users' r.
  pose proof (register_stores users b Hok Hnone) as Hstore.
  fold users' in Hstore.
  set (doc := registerDocument hashPassword newObjectId users b) in *.
  pose proof (register_stored_fields users b) as Hfields.
  cbv zeta in Hfields. fold doc in Hfields.
  set (u := match sendVerificationEmail authService doc with
            | Some (tok, exp) => withVerification doc tok exp
            | None => afterFailedMail authService doc
            end) in *.
  destruct Hfields as (Hmail & Hpass & Hver & _).
  assert (Hfound : UserModel.findOneCollation (registerEmail b) users' = Some u).
  { rewrite Hstore. apply find_app_fresh; [exact Hnone |].
    unfold collationEq. rewrite Hmail. apply String.eqb_refl. }
  exists u. split; [exact Hstore |]. split; [exact Hver |].
  assert (Hlogin : loginInputOk isEmail (credentialsOf b) = true).
  { unfold registerInputOk in Hok. unfold loginInputOk, loginEmail, loginPassword.
    simpl LoginBody.email. simpl LoginBody.password. fold (registerEmail b).
    apply andb_true_iff in Hok as [Hne Hfmt]. rewrite Hfmt, andb_true_r.
    apply negb_true_iff in Hne. apply negb_true_iff.
    apply orb_false_iff in Hne as [Hne Hp].
    apply orb_false_iff in Hne as [_ He]. by rewrite He, Hp. }
  apply loginInputOk_inv in Hlogin as [H1 H2].
  subst r. unfold login.
  fold (loginEmail (credentialsOf b)). fold (loginPassword (credentialsOf b)).
  cbv zeta. rewrite H1, H2.
  change (loginEmail (credentialsOf b)) with (registerEmail b).
  rewrite Hfound.
  rewrite (Hhash (loginPassword (credentialsOf b)) u Hpass). simpl negb.
  cbv iota. split; [reflexivity |].
  unfold dataToken, dataOf. simpl. by simplify_map_eq.
Qed.

(** The token and the id that a registration mails verify the new user when
    they are presented before the expiry, provided the database gave the
    document an id that no stored document has. *)
Theorem register_then_verifyEmail users b tok exp now :
  registerInputOk isEmail b = true ->
  UserModel.findOneCollation (registerEmail b) users = None ->
  sendVerificationEmail authService
    (registerDocument hashPassword newObjectId users b) = Some (tok, exp) ->
  UserModel.findById (newObjectId users) users = None ->
  tok <> "" -> newObjectId users <> "" -> now <= exp ->
  let users' := snd (register isEmail authService hashPassword newObjectId users b) in
  let r := verifyEmail now users' (Some tok) (Some (newObjectId users)) in
  statusOf (fst r) = Some 200
  /\ exists u,
       UserModel.findById (newObjectId users) (snd r) = Some u
       /\ User.email u = registerEmail b
       /\ User.isVerified u = true.
Proof.
  intros Hok Hnone Hmail Hfresh Htok Hid Hnow users' r.
  pose proof (register_stores users b Hok Hnone) as Hstore.
  fold users' in Hstore. rewrite Hmail in Hstore.
  set (doc := registerDocument hashPassword newObjectId users b) in *.
  assert (Hfound : UserModel.findById (newObjectId users) users'
                   = Some (withVerification doc tok exp)).
  { rewrite Hstore. apply find_app_fresh; [exact Hfresh |].
    simpl. apply String.eqb_refl. }
  assert (Hrun : r = (Sent (mkResponse 200 []
                         (<["success" := JBool true]>
                            (<["message" := JStr "Email verified successfully!"]> ∅))),
                      UserModel.save (markVerified (withVerification doc tok exp))
                        users')).
  { subst r. apply verifyEmail_accepts; try done.
    simpl. by apply Z.ltb_ge. }
  rewrite Hrun. simpl. split; [done |].
  exists (markVerified (withVerification doc tok exp)).
  split; [| done].
  by apply findById_save with (u := withVerification doc tok exp).
Qed.

End RegistrationFlow.

(** ** Login, admin login and the session they open *)

Section SessionProperties.

Variable isEmail : string -> bool.
Variable authService : AuthService.
Variable NODE_ENV : option string.

Lemma normalise_idem e :
  toLowerCase (validator.trim (toLowerCase (validator.trim e)))
  = toLowerCase (validator.trim e).
Proof. by rewrite trim_toLowerCase, toLowerCase_idem, trim_idem. Qed.

(** Letter case and surrounding whitespace of the email, and surrounding
    whitespace of the password, make no difference to [login] and
    [adminLogin]: the request with the normalised email and the trimmed
    password gets the same answer. *)
Theorem login_normalises_input users e p :
  login isEmail authService NODE_ENV users (LoginBody.mk (Some e) (Some p))
  = login isEmail authService NODE_ENV users
      (LoginBody.mk (Some (toLowerCase (validator.trim e)))
         (Some (validator.trim p)))
  /\ adminLogin isEmail authService NODE_ENV users (LoginBody.mk (Some e) (Some p))
     = adminLogin isEmail authService NODE_ENV users
         (LoginBody.mk (Some (toLowerCase (validator.trim e)))
            (Some (validator.trim p))).
Proof.
  unfold login, adminLogin. simpl LoginBody.email. simpl LoginBody.password.
  simpl nullish. by rewrite normalise_idem, trim_idem.
Qed.

(** A successful [login] sets one cookie, [token], HTTP-only for 30 days with
    [SameSite=None], marked secure exactly in production; its value is the
    session token generated for the user found, the body repeats the same
    token, and the user object in the body has no password. *)
Theorem login_success_session users b :
  statusOf (login isEmail authService NODE_ENV users b) = Some 200 ->
  exists u c,
    UserModel.findOneCollation (loginEmail b) users = Some u
    /\ matchPassword authService (loginPassword b) u = true
    /\ cookiesOf (login isEmail authService NODE_ENV users b) = [c]
    /\ sessionCookie "token" (generateToken authService u) c
    /\ sameSite (cookieOptions c) = "none"
    /\ secure (cookieOptions c) = Some (production NODE_ENV)
    /\ dataToken (login isEmail authService NODE_ENV users b)
       = Some (JStr (generateToken authService u))
    /\ exists obj,
         dataUser (login isEmail authService NODE_ENV users b) = Some obj
         /\ obj !! "password" = None
         /\ obj !! "email" = Some (JStr (User.email u)).
Proof.
  unfold login. fold (loginEmail b). fold (loginPassword b). cbv zeta.
  destruct (_ || _); [done |].
  destruct (negb (isEmail (loginEmail b))); [done |].
  destruct (UserModel.findOneCollation (loginEmail b) users) as [u |]; [| done].
  destruct (matchPassword authService (loginPassword b) u) eqn:Hmatch;
    [| done].
  intros _. exists u. eexists. split; [done |]. split; [exact Hmatch |].
  simpl negb. cbv iota.
  split; [reflexivity |]. unfold sessionCookie. simpl.
  do 3 (split; [done |]).
  split; [unfold dataToken, dataOf; simpl; by simplify_map_eq |].
  exists (delete "password" (User.toObject u)).
  split; [unfold dataUser; simpl; by simplify_map_eq |].
  split; [apply lookup_delete_eq |].
  unfold User.toObject, setOptional.
  destruct (User.verificationToken u), (User.verificationTokenExpires u);
    by simplify_map_eq.
Qed.

(** [adminLogin] refuses whatever [login] refuses, with the same error; and
    when [adminLogin] succeeds, [login] succeeds on the same request, with
    the session token that both cookies of [adminLogin] carry. *)
Theorem adminLogin_follows_login users b :
  (forall err,
     login isEmail authService NODE_ENV users b = Next err ->
     adminLogin isEmail authService NODE_ENV users b = Next err)
  /\ (statusOf (adminLogin isEmail authService NODE_ENV users b) = Some 200 ->
      statusOf (login isEmail authService NODE_ENV users b) = Some 200
      /\ exists tok,
           dataToken (login isEmail authService NODE_ENV users b)
           = Some (JStr tok)
           /\ Forall (fun c => cookieValue c = tok)
                (cookiesOf (adminLogin isEmail authService NODE_ENV users b))).
Proof.
  unfold login, adminLogin. fold (loginEmail b). fold (loginPassword b).
  cbv zeta.
  destruct (_ || _); [by split |].
  destruct (negb (isEmail (loginEmail b))); [by split |].
  destruct (UserModel.findOneCollation (loginEmail b) users) as [u |];
    [| by split].
  destruct (negb (matchPassword authService (loginPassword b) u)); [by split |].
  split; [done |].
  destruct (checkAdminAccess authService (User._id u)) as [[|] |]; try done.
  intros _. split; [done |].
  exists (generateToken authService u).
  split; [unfold dataToken, dataOf; simpl; by simplify_map_eq |].
  simpl. by repeat constructor.
Qed.

(** The four ways in which [login] ends. *)
Lemma login_status_cases users b :
  statusOf (login isEmail authService NODE_ENV users b) = Some 200
  \/ login isEmail authService NODE_ENV users b
     = fail "Please provide an email and password" 400
  \/ login isEmail authService NODE_ENV users b = fail "Invalid email format" 400
  \/ login isEmail authService NODE_ENV users b = fail "Invalid credentials" 401.
Proof.
  unfold login. cbv zeta.
  destruct (_ || _); [auto |].
  destruct (negb (isEmail _)); [auto |].
  destruct (UserModel.findOneCollation _ users) as [u |]; [| auto].
  destruct (negb (matchPassword authService _ u)); auto.
Qed.

End SessionProperties.

(** ** The current user *)

Section GetMeProperties.

Variable authService : AuthService.

(** [getMe] answers 200 exactly when the request carries an identity, the
    user of that identity is stored, the admin check passes if an
    [admin_token] cookie is present, and the organization check passes if an
    [org_token] cookie and an [organizationId] parameter are both present. *)
Theorem getMe_ok_iff users req :
  statusOf (getMe authService users req) = Some 200
  <-> truthy (reqUserId req) = true
      /\ exists u,
           UserModel.findById (nullish (reqUserId req) "") users = Some u
           /\ (truthy (reqCookies req !! "admin_token") = true ->
               checkAdminAccess authService (User._id u) = Some true)
           /\ (truthy (reqCookies req !! "org_token")
               && truthy (reqParams req !! "organizationId") = true ->
               checkUserRoleInOrganization authService (User._id u)
                 (nullish (reqParams req !! "organizationId") "") = Some true).
Proof.
  unfold getMe.
  destruct (truthy (reqUserId req)); simpl negb; cbv iota;
    [| split; [done | by intros [? _]]].
  destruct (UserModel.findById _ users) as [u |];
    [| split; [done | by intros (_ & ? & ? & _)]].
  destruct (truthy (reqCookies req !! "admin_token"));
    [destruct (checkAdminAccess authService (User._id u)) as [[|] |] eqn:Haa |];
    (destruct (truthy (reqCookies req !! "org_token")
               && truthy (reqParams req !! "organizationId"));
     [destruct (checkUserRoleInOrganization authService (User._id u)
                  (nullish (reqParams req !! "organizationId") ""))
        as [[|] |] eqn:Hoa |]);
    simpl;
    (split;
     [ intros H;
       first [ discriminate H
             | split; [done |]; exists u; split; [done |]; split; intros; done ]
     | intros (_ & v & Hv & Ha & Ho); injection Hv as <-;
       first [ specialize (Ha eq_refl); congruence
             | specialize (Ho eq_refl); congruence
             | done ] ]).
Qed.

(** For a request without [admin_token] and [org_token] cookies the answer
    of [getMe] does not depend on the access checks at all. *)
Theorem getMe_plain_session authService' users req :
  truthy (reqCookies req !! "admin_token") = false ->
  truthy (reqCookies req !! "org_token") = false ->
  getMe authService users req = getMe authService' users req.
Proof.
  intros Ha Ho. unfold getMe. by rewrite Ha, Ho.
Qed.

End GetMeProperties.

(** ** Reset tokens *)

Lemma deleteTokenOf_subset id tokens t :
  t ∈ deleteTokenOf id tokens -> t ∈ tokens.
Proof.
  induction tokens as [| a rest IH]; simpl; [done |].
  destruct (String.eqb (Token.userId a) id).
  - intros H. by right.
  - intros H. apply elem_of_cons in H as [-> | H]; [by left |].
    right. by apply IH.
Qed.

Lemma deleteTokenOf_keeps id tokens t :
  t ∈ tokens -> Token.userId t <> id -> t ∈ deleteTokenOf id tokens.
Proof.
  induction tokens as [| a rest IH]; simpl; [done |].
  intros Hin Hne. apply elem_of_cons in Hin as [<- | Hin].
  - apply String.eqb_neq in Hne. rewrite Hne. by left.
  - destruct (String.eqb (Token.userId a) id); [done |].
    right. by apply IH.
Qed.

Lemma deleteTokenOf_unique id tokens :
  oneTokenPerUser tokens -> oneTokenPerUser (deleteTokenOf id tokens).
Proof.
  unfold oneTokenPerUser.
  induction tokens as [| a rest IH]; simpl; [done |].
  intros Hnd. apply NoDup_cons in Hnd as [Ha Hnd].
  destruct (String.eqb (Token.userId a) id); [done |].
  simpl. apply NoDup_cons. split; [| by apply IH].
  intros Hin. apply Ha.
  apply list_elem_of_fmap in Hin as (t & -> & Ht).
  apply list_elem_of_fmap_2. by apply deleteTokenOf_subset in Ht.
Qed.

Lemma deleteTokenOf_gone id tokens t :
  oneTokenPerUser tokens -> t ∈ deleteTokenOf id tokens -> Token.userId t <> id.
Proof.
  unfold oneTokenPerUser.
  induction tokens as [| a rest IH]; simpl;
    [intros _ H; by apply elem_of_nil in H |].
  intros Hnd. apply NoDup_cons in Hnd as [Ha Hnd].
  destruct (String.eqb (Token.userId a) id) eqn:Hid.
  - apply String.eqb_eq in Hid. intros Hin Ht. apply Ha.
    rewrite Hid, <- Ht. by apply list_elem_of_fmap_2.
  - intros Hin. apply elem_of_cons in Hin as [-> | Hin]; [| by apply IH].
    by apply String.eqb_neq.
Qed.

Section ResetTokenProperties.

Variable authService : AuthService.


(** A reset request for a stored user keeps the rule of one reset token per
    user, as long as the token that the mail service creates belongs to the
    user it was asked for; the tokens of other users stay. *)
Theorem forgotPassword_keeps_one_token_per_user users tokens e u :
  e <> "" ->
  UserModel.findOne e users = Some u ->
  oneTokenPerUser tokens ->
  (forall created result,
     sendPasswordResetEmail authService u = MailSent created result ->
     Token.userId created = User._id u) ->
  let r := forgotPassword authService users tokens (Some e) in
  oneTokenPerUser (snd r)
  /\ (forall t, t ∈ tokens -> Token.userId t <> User._id u -> t ∈ snd r).
Proof.
  intros He Hfind Hone Hown r. subst r. unfold forgotPassword.
  rewrite truthy_Some by done. simpl negb. cbv iota. simpl nullish.
  rewrite Hfind.
  pose proof (deleteTokenOf_unique (User._id u) tokens Hone) as Hone'.
  destruct (sendPasswordResetEmail authService u) as [created result | msg |];
    simpl;
    (split; [| intros t Ht Hne; try (apply elem_of_app; left);
               by apply deleteTokenOf_keeps]);
    try exact Hone'.
  unfold oneTokenPerUser. rewrite map_app. simpl.
  apply NoDup_app. split; [exact Hone' |]. split; [| apply NoDup_singleton].
  intros x Hx Hx'. apply list_elem_of_singleton in Hx'. subst x.
  apply list_elem_of_fmap in Hx as (t & Ht & Hin).
  apply (deleteTokenOf_gone _ _ _ Hone) in Hin.
  apply Hin. rewrite <- Ht. by apply (Hown created result).
Qed.

(** A reset request that is refused (no email, or no user with exactly that
    email) touches no reset token. *)
Theorem forgotPassword_refused_keeps_tokens users tokens email err :
  fst (forgotPassword authService users tokens email) = Next err ->
  statusCode err <> 500 ->
  snd (forgotPassword authService users tokens email) = tokens
  /\ (statusCode err = 400 \/ statusCode err = 404).
Proof.
  unfold forgotPassword.
  destruct (negb (truthy email)); [intros [= <-]; auto |].
  destruct (UserModel.findOne _ users) as [u |]; [| intros [= <-]; auto].
  destruct (sendPasswordResetEmail authService u); simpl;
    [done | intros [= <-]; done | intros [= <-]; done].
Qed.

End ResetTokenProperties.

(** ** Verification, its deadline and its renewal *)



(** The collation lookup of a stored email after that user was saved with
    the email unchanged: unique emails make it the saved document. *)
Lemma findOneCollation_save id users u u' :
  emailsUnique users ->
  UserModel.findById id users = Some u ->
  User._id u' = User._id u -> User.email u' = User.email u ->
  UserModel.findOneCollation (User.email u) (UserModel.save u' users) = Some u'.
Proof.
  intros Huniq Hfind Hid Hmail. pose proof (findById_id _ _ _ Hfind) as Hu.
  rewrite <- Hid in Hu. revert Huniq Hfind.
  unfold emailsUnique, UserModel.findById, UserModel.findOneCollation.
  induction users as [| v rest IH]; simpl; [done |]. rewrite Hu.
  intros Huniq. apply NoDup_cons in Huniq as [Hv Huniq].
  destruct (String.eqb (User._id v) id); simpl.
  - intros _. unfold collationEq. by rewrite Hmail, String.eqb_refl.
  - intros Hfind.
    assert (Hne : collationEq (User.email v) (User.email u) = false).
    { unfold collationEq. apply String.eqb_neq. intros Heq. apply Hv.
      rewrite Heq.
      apply (list_elem_of_fmap_2 (fun w => toLowerCase (User.email w))).
      apply list_elem_of_In. by apply (List.find_some _ _ Hfind). }
    rewrite Hne. by apply IH.
Qed.


(** The stored token is accepted up to and including the instant of its
    expiry and refused after it; a stored token without an expiry is
    accepted at any time. *)
Theorem verifyEmail_deadline now users u t id :
  t <> "" -> id <> "" ->
  UserModel.findById id users = Some u ->
  User.verificationToken u = Some t ->
  let r := verifyEmail now users (Some t) (Some id) in
  (forall e, User.verificationTokenExpires u = Some e ->
             (statusOf (fst r) = Some 200 <-> now <= e)
             /\ (e < now -> r = (fail "Invalid or expired token" 400, users)))
  /\ (User.verificationTokenExpires u = None -> statusOf (fst r) = Some 200).
Proof.
  intros Ht Hid Hfind Htok r. subst r. unfold verifyEmail.
  rewrite !truthy_Some by done. simpl negb. simpl nullish. cbv iota.
  rewrite Hfind, Htok. simpl tokenDiffers. rewrite String.eqb_refl.
  simpl negb. split.
  - intros e ->. simpl. destruct (e <? now) eqn:Hlt; simpl.
    + apply Z.ltb_lt in Hlt. split; [split; [done | lia] | done].
    + apply Z.ltb_ge in Hlt. split; [split; [done | done] | lia].
  - by intros ->.
Qed.

Section RenewalProperties.

Variable isEmail : string -> bool.
Variable authService : AuthService.

(** Once a user is verified, a request to resend the verification mail to
    the stored email is refused with "Email is already verified": no new
    token is issued and nothing changes. *)
Theorem verifyEmail_then_resend now users u t id :
  t <> "" -> id <> "" ->
  UserModel.findById id users = Some u ->
  User.verificationToken u = Some t ->
  pastExpiry now (User.verificationTokenExpires u) = false ->
  emailsUnique users ->
  User.email u <> "" -> isEmail (User.email u) = true ->
  let users' := snd (verifyEmail now users (Some t) (Some id)) in
  resendVerificationEmail isEmail authService users' (Some (User.email u))
  = (fail "Email is already verified" 400, users').
Proof.
  intros Ht Hid Hfind Htok Hexp Huniq Hmail Hfmt users'. subst users'.
  rewrite (verifyEmail_accepts now users u t id) by done. simpl snd.
  unfold resendVerificationEmail.
  rewrite truthy_Some by done. simpl negb. simpl nullish. cbv iota.
  rewrite Hfmt. simpl negb. cbv iota.
  by rewrite (findOneCollation_save id users u (markVerified u)).
Qed.

(** Resending the verification mail to a stored, unverified user replaces
    the stored token: the new token verifies the user when it is presented
    before its expiry, and a token other than the new one is refused. *)
Theorem resend_supersedes_token now users u e tok exp old :
  e <> "" -> isEmail e = true ->
  UserModel.findOneCollation e users = Some u ->
  UserModel.findById (User._id u) users = Some u ->
  User.isVerified u = false ->
  sendVerificationEmail authService u = Some (tok, exp) ->
  tok <> "" -> User._id u <> "" -> now <= exp -> old <> tok ->
  let users' := snd (resendVerificationEmail isEmail authService users (Some e)) in
  statusOf (fst (resendVerificationEmail isEmail authService users (Some e)))
  = Some 200
  /\ statusOf (fst (verifyEmail now users' (Some tok) (Some (User._id u))))
     = Some 200
  /\ verifyEmail now users' (Some old) (Some (User._id u))
     = (fail (if isEmptyString old then "Invalid verification link"
              else "Invalid or expired token") 400, users').
Proof.
  intros He Hfmt Hfind Hbyid Hver Hsend Htok Hid Hnow Hold users'.
  assert (Hrun : resendVerificationEmail isEmail authService users (Some e)
                 = (Sent (mkResponse 200 []
                      (<["success" := JBool true]>
                         (<["message" := JStr
                              "Verification email has been sent. Please check your inbox."]>
                            ∅))),
                    UserModel.save (withVerification u tok exp) users)).
  { unfold resendVerificationEmail.
    rewrite truthy_Some by done. simpl negb. simpl nullish. cbv iota.
    by rewrite Hfmt, Hfind, Hver, Hsend. }
  subst users'. rewrite Hrun. simpl fst. simpl snd.
  assert (Hnew : UserModel.findById (User._id u)
                   (UserModel.save (withVerification u tok exp) users)
                 = Some (withVerification u tok exp)).
  { by apply findById_save with (u := u). }
  split; [done |]. split.
  - rewrite (verifyEmail_accepts now _ (withVerification u tok exp) tok
               (User._id u)); try done.
    simpl. by apply Z.ltb_ge.
  - unfold verifyEmail, ObjectId. rewrite (truthy_Some (User._id u)) by done.
    destruct old as [| c old']; [done |].
    simpl truthy. simpl negb. simpl nullish. cbv iota.
    rewrite Hnew. simpl tokenDiffers.
    assert (Hne : String.eqb tok (String c old') = false).
    { apply String.eqb_neq. congruence. }
    by rewrite Hne.
Qed.

End RenewalProperties.

(** ** Who reaches which controller *)

Section UserRouteProperties.

Import UserRoutes.

Variable decodeURIComponent : string -> option string.
Variable verifyToken : string -> option ObjectId.

Lemma runProtect_identity req req' :
  runProtect verifyToken req = Some req' ->
  exists tok id,
    reqCookies req !! "token" = Some tok
    /\ verifyToken tok = Some id
    /\ reqUserId req' = Some id.
Proof.
  unfold runProtect.
  destruct (reqCookies req !! "token") as [tok |]; [| done].
  destruct (verifyToken tok) as [id |] eqn:Hid; [| done].
  intros [= <-]. by exists tok, id.
Qed.

(** A controller function is reached through the chain of one of the
    routes. *)
Lemma dispatchFrom_reaches pending routes req h req' :
  dispatchFrom decodeURIComponent verifyToken pending routes req
  = Reaches h req' ->
  exists r, r ∈ routes
            /\ runChain verifyToken (routeChain r) req = Some (Reaches h req').
Proof.
  revert pending.
  induction routes as [| r rest IH]; intros pending; cbn [dispatchFrom].
  - by destruct pending.
  - assert (Hrest : forall p,
              dispatchFrom decodeURIComponent verifyToken p rest req
              = Reaches h req' ->
              exists r', r' ∈ r :: rest
                         /\ runChain verifyToken (routeChain r') req
                            = Some (Reaches h req')).
    { intros p Hp. destruct (IH p Hp) as (r' & Hin & Hrun).
      exists r'. split; [by right | done]. }
    destruct (matchLayer decodeURIComponent (routePath r) (reqPath req));
      [by apply Hrest | | by apply Hrest].
    destruct (pending || negb (methodEqb (routeMethod r) (reqMethod req)));
      [by apply Hrest |].
    destruct (runChain verifyToken (routeChain r) req) as [o |] eqn:Hrun;
      [| by apply Hrest].
    intros ->. exists r. split; [by left | done].
Qed.

(** Of the user routes, [getUserByIdAdmin] alone runs on a request as it
    came. Every other controller function runs only on a request whose
    [token] cookie verified, with the identity of that token attached. *)
Theorem user_routes_identity req h req' :
  dispatch decodeURIComponent verifyToken router req = Reaches h req' ->
  (h = getUserByIdAdmin /\ req' = req)
  \/ (needsIdentity h = true
      /\ exists tok id,
           reqCookies req !! "token" = Some tok
           /\ verifyToken tok = Some id
           /\ reqUserId req' = Some id).
Proof.
  intros Hrun. apply dispatchFrom_reaches in Hrun as (r & Hr & Hrun).
  unfold router in Hr.
  repeat (apply elem_of_cons in Hr as [-> | Hr]);
    [ .. | by apply elem_of_nil in Hr];
    cbn [routeChain get put runChain] in Hrun;
    try (injection Hrun as <- <-; by left);
    (destruct (runProtect verifyToken req) as [req1 |] eqn:Hp; [| done]);
    injection Hrun as <- <-; right; (split; [done |]);
    by apply runProtect_identity.
Qed.

(** A request without a [token] cookie gets to no controller function of
    the user routes other than [getUserByIdAdmin]. *)
Theorem user_routes_without_token req h req' :
  reqCookies req !! "token" = None ->
  dispatch decodeURIComponent verifyToken router req = Reaches h req' ->
  h = getUserByIdAdmin.
Proof.
  intros Hnone Hrun. apply dispatchFrom_reaches in Hrun as (r & Hr & Hrun).
  unfold router in Hr.
  repeat (apply elem_of_cons in Hr as [-> | Hr]);
    [ .. | by apply elem_of_nil in Hr];
    cbn [routeChain get put runChain] in Hrun; unfold runProtect in Hrun;
    rewrite ?Hnone in Hrun; try done; by injection Hrun as <- <-.
Qed.

End UserRouteProperties.

Section FacilityRouteProperties.

Import FacilityRoutes.

Variable decodeURIComponent : string -> option string.
Variable runMiddleware : Middleware -> Request -> Request + Z.

(** A controller method is reached through the chain of one of the
    routes. *)
Lemma facility_dispatchFrom_reaches pending routes req c req' :
  dispatchFrom decodeURIComponent runMiddleware pending routes req
  = Reaches c req' ->
  exists r, r ∈ routes
            /\ runChain runMiddleware (routeChain r) req
               = Some (Reaches c req').
Proof.
  revert pending.
  induction routes as [| r rest IH]; intros pending; cbn [dispatchFrom].
  - by destruct pending.
  - assert (Hrest : forall p,
              dispatchFrom decodeURIComponent runMiddleware p rest req
              = Reaches c req' ->
              exists r', r' ∈ r :: rest
                         /\ runChain runMiddleware (routeChain r') req
                            = Some (Reaches c req')).
    { intros p Hp. destruct (IH p Hp) as (r' & Hin & Hrun).
      exists r'. split; [by right | done]. }
    destruct (UserRoutes.matchLayer decodeURIComponent (routePath r)
                (reqPath req));
      [by apply Hrest | | by apply Hrest].
    destruct (pending
              || negb (UserRoutes.methodEqb (routeMethod r) (reqMethod req)));
      [by apply Hrest |].
    destruct (runChain runMiddleware (routeChain r) req) as [o |] eqn:Hrun;
      [| by apply Hrest].
    intros ->. exists r. split; [by left | done].
Qed.

(** A controller method that changes the facility catalogue is reached only
    by a request that [protect] handed on and that
    [checkPermission("manage_tags")] then handed on, in this order. *)
Theorem facility_mutations_gated req c req' :
  dispatch decodeURIComponent runMiddleware router req = Reaches c req' ->
  mutates c = true ->
  exists req1,
    runMiddleware protect req = inl req1
    /\ runMiddleware (checkPermission "manage_tags") req1 = inl req'.
Proof.
  intros Hrun. apply facility_dispatchFrom_reaches in Hrun as (r & Hr & Hrun).
  unfold router in Hr.
  repeat (apply elem_of_cons in Hr as [-> | Hr]);
    [ .. | by apply elem_of_nil in Hr];
    cbn [routeChain runChain] in Hrun;
    try (injection Hrun as <- <-; done);
    (destruct (runMiddleware protect req) as [req1 | code] eqn:Hp; [| done]);
    (destruct (runMiddleware (checkPermission "manage_tags") req1)
       as [req2 | code] eqn:Hc; [| done]);
    injection Hrun as <- <-; intros _; by exists req1.
Qed.

(** The layer of "/" captures nothing, so it never fails to decode. *)
Lemma matchLayer_root url :
  UserRoutes.matchLayer decodeURIComponent "/" url <> UserRoutes.DecodeError.
Proof.
  unfold UserRoutes.matchLayer.
  destruct (UserRoutes.pathSegments url) as [ss |]; [| done].
  change (UserRoutes.pattern "/") with (@nil UserRoutes.Segment).
  by destruct ss.
Qed.

(** No middleware stands before the reading routes: what becomes of a GET
    request is decided by its path alone. It reaches [getAllFacilities] when
    the layer of "/" matches the path, [getFacilityById] when the layer of
    "/:id" matches and the id decodes, it is answered with status 400 when
    the id does not decode, and no route takes it otherwise. *)
Theorem facility_reads_public req :
  reqMethod req = GET ->
  dispatch decodeURIComponent runMiddleware router req
  = match UserRoutes.matchLayer decodeURIComponent "/" (reqPath req),
          UserRoutes.matchLayer decodeURIComponent "/:id" (reqPath req) with
    | UserRoutes.Hit, _ => Reaches getAllFacilities req
    | _, UserRoutes.Hit => Reaches getFacilityById req
    | _, UserRoutes.DecodeError => Rejected 400
    | _, UserRoutes.Miss => Unrouted
    end.
Proof.
  intros Hget. unfold dispatch, router.
  cbn [dispatchFrom routeMethod routePath routeChain]. rewrite Hget.
  pose proof (matchLayer_root (reqPath req)) as Hroot.
  destruct (UserRoutes.matchLayer decodeURIComponent "/" (reqPath req));
    [| reflexivity | done].
  by destruct (UserRoutes.matchLayer decodeURIComponent "/:id" (reqPath req)).
Qed.

End FacilityRouteProperties.

(** ** The further properties on concrete data *)

Lemma sample_users_trimmed :
  Forall (fun u => trimmed (User.email u)) Sample.users.
Proof. repeat constructor. Qed.

Lemma sample_hash_accepted : hashAccepted Sample.authService Sample.hashPassword.
Proof. intros p u Hu. simpl. rewrite Hu. apply String.eqb_refl. Qed.

Lemma scenario_tokens_unique : oneTokenPerUser Scenario.tokens.
Proof. unfold oneTokenPerUser. apply (bool_decide_unpack _). by vm_compute. Qed.

Lemma bob_accepted :
  registerInputOk Sample.isEmail Scenario.bob = true
  /\ UserModel.findOneCollation (registerEmail Scenario.bob) Sample.users = None.
Proof. split; by vm_compute. Qed.

Lemma register_keeps_invariant_witness :
  emailsUnique Sample.users
  /\ Forall (fun u => trimmed (User.email u)) Sample.users
  /\ emailsUnique (snd (Sample.register Sample.users Scenario.bob))
  /\ Forall (fun u => trimmed (User.email u))
       (snd (Sample.register Sample.users Scenario.bob)).
Proof.
  split; [exact sample_users_unique |]. split; [exact sample_users_trimmed |].
  exact (register_keeps_invariant Sample.isEmail Sample.authService
           Sample.hashPassword Sample.newObjectId Sample.users Scenario.bob
           sample_users_unique sample_users_trimmed).
Defined.

Lemma register_again_refused_witness :
  registerInputOk Sample.isEmail Scenario.bob = true
  /\ UserModel.findOneCollation (registerEmail Scenario.bob) Sample.users = None
  /\ Sample.register (snd (Sample.register Sample.users Scenario.bob)) Scenario.bob
     = (fail "Email already registered" 400,
        snd (Sample.register Sample.users Scenario.bob)).
Proof.
  split; [exact (proj1 bob_accepted) |]. split; [exact (proj2 bob_accepted) |].
  exact (register_again_refused Sample.isEmail Sample.authService
           Sample.hashPassword Sample.newObjectId Sample.users Scenario.bob
           (proj1 bob_accepted) (proj2 bob_accepted)).
Defined.

Lemma register_mail_failure_keeps_user_witness :
  sendVerificationEmail Scenario.mailDown
    (registerDocument Sample.hashPassword Sample.newObjectId Sample.users
       Scenario.bob) = None
  /\ exists u,
       register Sample.isEmail Scenario.mailDown Sample.hashPassword
         Sample.newObjectId Sample.users Scenario.bob
       = (Thrown, (Sample.users ++ [u])%list)
       /\ User.email u = "bob@test.com"
       /\ User.isVerified u = false.
Proof.
  split; [reflexivity |].
  exact (register_mail_failure_keeps_user Sample.isEmail Scenario.mailDown
           Sample.hashPassword Sample.newObjectId Sample.users Scenario.bob
           (proj1 bob_accepted) (proj2 bob_accepted) eq_refl).
Defined.

Lemma register_then_login_witness :
  hashAccepted Sample.authService Sample.hashPassword
  /\ exists u,
       snd (Sample.register Sample.users Scenario.bob) = (Sample.users ++ [u])%list
       /\ User.isVerified u = false
       /\ statusOf (Sample.login (snd (Sample.register Sample.users Scenario.bob))
                      (credentialsOf Scenario.bob)) = Some 200
       /\ dataToken (Sample.login (snd (Sample.register Sample.users Scenario.bob))
                       (credentialsOf Scenario.bob))
          = Some (JStr (generateToken Sample.authService u)).
Proof.
  split; [exact sample_hash_accepted |].
  exact (register_then_login Sample.isEmail Sample.authService
           Sample.hashPassword Sample.newObjectId (Some "production")
           Sample.users Scenario.bob sample_hash_accepted
           (proj1 bob_accepted) (proj2 bob_accepted)).
Defined.

Lemma register_then_verifyEmail_witness :
  let users' := snd (Sample.register Sample.users Scenario.bob) in
  let r := verifyEmail 5000 users' (Some "verify:user-ii") (Some "user-ii") in
  sendVerificationEmail Sample.authService
    (registerDocument Sample.hashPassword Sample.newObjectId Sample.users
       Scenario.bob) = Some ("verify:user-ii", 86400000)
  /\ UserModel.findById (Sample.newObjectId Sample.users) Sample.users = None
  /\ statusOf (fst r) = Some 200
  /\ exists u,
       UserModel.findById "user-ii" (snd r) = Some u
       /\ User.email u = "bob@test.com"
       /\ User.isVerified u = true.
Proof.
  cbv zeta. split; [by vm_compute |]. split; [by vm_compute |].
  apply (register_then_verifyEmail Sample.isEmail Sample.authService
           Sample.hashPassword Sample.newObjectId Sample.users Scenario.bob
           "verify:user-ii" 86400000 5000
           (proj1 bob_accepted) (proj2 bob_accepted));
    by vm_compute.
Defined.

Lemma login_success_session_witness :
  let b := LoginBody.mk (Some " A@Test.com ") (Some "Passw0rd!") in
  statusOf (Sample.login Sample.users b) = Some 200
  /\ exists u c,
       UserModel.findOneCollation (loginEmail b) Sample.users = Some u
       /\ matchPassword Sample.authService (loginPassword b) u = true
       /\ cookiesOf (Sample.login Sample.users b) = [c]
       /\ sessionCookie "token" (generateToken Sample.authService u) c
       /\ sameSite (cookieOptions c) = "none"
       /\ secure (cookieOptions c) = Some true
       /\ dataToken (Sample.login Sample.users b)
          = Some (JStr (generateToken Sample.authService u))
       /\ exists obj,
            dataUser (Sample.login Sample.users b) = Some obj
            /\ obj !! "password" = None
            /\ obj !! "email" = Some (JStr (User.email u)).
Proof.
  cbv zeta. split; [by vm_compute |].
  apply (login_success_session Sample.isEmail Sample.authService
           (Some "production") Sample.users
           (LoginBody.mk (Some " A@Test.com ") (Some "Passw0rd!"))).
  by vm_compute.
Defined.

Lemma adminLogin_follows_login_witness :
  let plain := LoginBody.mk (Some "a@test.com") (Some "guess") in
  let admin := LoginBody.mk (Some "root@test.com") (Some "S3cret") in
  Sample.login Sample.users plain = fail "Invalid credentials" 401
  /\ Sample.adminLogin Sample.users plain = fail "Invalid credentials" 401
  /\ statusOf (Sample.adminLogin Sample.users admin) = Some 200
  /\ statusOf (Sample.login Sample.users admin) = Some 200.
Proof.
  cbv zeta. split; [by vm_compute |]. split.
  - apply (proj1 (adminLogin_follows_login Sample.isEmail Sample.authService
                    (Some "production") Sample.users
                    (LoginBody.mk (Some "a@test.com") (Some "guess")))).
    by vm_compute.
  - split; [by vm_compute |].
    apply (proj2 (adminLogin_follows_login Sample.isEmail Sample.authService
                    (Some "production") Sample.users
                    (LoginBody.mk (Some "root@test.com") (Some "S3cret")))).
    by vm_compute.
Defined.

Lemma getMe_ok_iff_witness :
  let req := Scenario.rootSession (<["admin_token" := "jwt:root"]> ∅) in
  truthy (reqUserId req) = true
  /\ UserModel.findById "root" Sample.users = Some Sample.root
  /\ checkAdminAccess Sample.authService "root" = Some true
  /\ statusOf (Sample.getMe Sample.users req) = Some 200.
Proof.
  cbv zeta. do 3 (split; [by vm_compute |]).
  apply (proj2 (getMe_ok_iff Sample.authService Sample.users
                  (Scenario.rootSession (<["admin_token" := "jwt:root"]> ∅)))).
  split; [by vm_compute |]. exists Sample.root.
  split; [by vm_compute |]. split; [intros _; by vm_compute |].
  intros H. by vm_compute in H.
Defined.

Lemma getMe_plain_session_witness :
  let req := Scenario.rootSession (<["token" := "jwt:root"]> ∅) in
  truthy (reqCookies req !! "admin_token") = false
  /\ truthy (reqCookies req !! "org_token") = false
  /\ getMe Sample.authService Sample.users req
     = getMe Scenario.denying Sample.users req.
Proof.
  cbv zeta. split; [by vm_compute |]. split; [by vm_compute |].
  apply (getMe_plain_session Sample.authService Scenario.denying Sample.users
           (Scenario.rootSession (<["token" := "jwt:root"]> ∅)));
    by vm_compute.
Defined.

Lemma getMe_hides_secrets_witness :
  let req := mkRequest GET "/api/v1/auth/me" ∅ ∅ (Some "user-") in
  statusOf (Sample.getMe Sample.users req) = Some 200
  /\ exists obj,
       dataOf (Sample.getMe Sample.users req) = Some obj
       /\ obj !! "password" = None
       /\ obj !! "verificationToken" = None
       /\ obj !! "verificationTokenExpires" = None.
Proof.
  cbv zeta. split; [by vm_compute |].
  destruct (Sample.getMe Sample.users
              (mkRequest GET "/api/v1/auth/me" ∅ ∅ (Some "user-")))
    as [res | err |] eqn:Hrun; [| by vm_compute in Hrun ..].
  exact (getMe_hides_secrets Sample.authService Sample.users
           (mkRequest GET "/api/v1/auth/me" ∅ ∅ (Some "user-")) res Hrun).
Defined.


Lemma forgotPassword_keeps_one_token_per_user_witness :
  let r := Sample.forgotPassword Sample.users Scenario.tokens (Some "a@test.com") in
  UserModel.findOne "a@test.com" Sample.users = Some Sample.alice
  /\ oneTokenPerUser Scenario.tokens
  /\ statusOf (fst r) = Some 200
  /\ oneTokenPerUser (snd r)
  /\ (forall t, t ∈ Scenario.tokens ->
                Token.userId t <> User._id Sample.alice -> t ∈ snd r).
Proof.
  cbv zeta. split; [by vm_compute |].
  split; [exact scenario_tokens_unique |]. split; [by vm_compute |].
  apply (forgotPassword_keeps_one_token_per_user Sample.authService
           Sample.users Scenario.tokens "a@test.com" Sample.alice);
    [done | by vm_compute | exact scenario_tokens_unique |].
  intros created result [= <- _]. reflexivity.
Defined.

Lemma forgotPassword_refused_keeps_tokens_witness :
  Sample.forgotPassword Sample.users Scenario.tokens (Some "A@Test.com")
  = (fail "User not found" 404, Scenario.tokens).
Proof.
  destruct (forgotPassword_refused_keeps_tokens Sample.authService Sample.users
              Scenario.tokens (Some "A@Test.com")
              (mkErrorResponse "User not found" 404))
    as [Hkept _]; [by vm_compute | done |].
  apply injective_projections; [by vm_compute | exact Hkept].
Defined.


Lemma verifyEmail_deadline_witness :
  User.verificationTokenExpires Sample.alice = Some 86400000
  /\ statusOf (fst (verifyEmail 86400000 Sample.users (Some "verify:user-")
                      (Some "user-"))) = Some 200
  /\ verifyEmail 86400001 Sample.users (Some "verify:user-") (Some "user-")
     = (fail "Invalid or expired token" 400, Sample.users).
Proof.
  split; [reflexivity |]. split.
  - apply (proj1 (verifyEmail_deadline 86400000 Sample.users Sample.alice
                    "verify:user-" "user-" ltac:(done) ltac:(done)
                    eq_refl eq_refl) 86400000 eq_refl).
    reflexivity.
  - apply (proj1 (verifyEmail_deadline 86400001 Sample.users Sample.alice
                    "verify:user-" "user-" ltac:(done) ltac:(done)
                    eq_refl eq_refl) 86400000 eq_refl).
    reflexivity.
Defined.

Lemma verifyEmail_then_resend_witness :
  let users' := snd (verifyEmail 1000 Sample.users (Some "verify:user-")
                       (Some "user-")) in
  statusOf (fst (verifyEmail 1000 Sample.users (Some "verify:user-")
                   (Some "user-"))) = Some 200
  /\ Sample.isEmail (User.email Sample.alice) = true
  /\ resendVerificationEmail Sample.isEmail Sample.authService users'
       (Some (User.email Sample.alice))
     = (fail "Email is already verified" 400, users').
Proof.
  cbv zeta. split; [by vm_compute |]. split; [by vm_compute |].
  apply (verifyEmail_then_resend Sample.isEmail Sample.authService 1000
           Sample.users Sample.alice "verify:user-" "user-");
    try done; try exact sample_users_unique; by vm_compute.
Defined.

Lemma resend_supersedes_token_witness :
  let users' := snd (resendVerificationEmail Sample.isEmail Scenario.reissuing
                       Sample.users (Some "A@Test.com")) in
  UserModel.findOneCollation "A@Test.com" Sample.users = Some Sample.alice
  /\ sendVerificationEmail Scenario.reissuing Sample.alice
     = Some ("fresh:user-", 172800000)
  /\ User.verificationToken Sample.alice = Some "verify:user-"
  /\ statusOf (fst (resendVerificationEmail Sample.isEmail Scenario.reissuing
                      Sample.users (Some "A@Test.com"))) = Some 200
  /\ statusOf (fst (verifyEmail 90000000 users' (Some "fresh:user-")
                      (Some "user-"))) = Some 200
  /\ verifyEmail 90000000 users' (Some "verify:user-") (Some "user-")
     = (fail "Invalid or expired token" 400, users').
Proof.
  cbv zeta. do 3 (split; [by vm_compute |]).
  apply (resend_supersedes_token Sample.isEmail Scenario.reissuing 90000000
           Sample.users Sample.alice "A@Test.com" "fresh:user-" 172800000
           "verify:user-");
    try done; by vm_compute.
Defined.

Lemma user_routes_identity_witness :
  let req := Scenario.withToken GET "/me" "jwt:root" in
  let req' := mkRequest GET "/me" (<["token" := "jwt:root"]> ∅) ∅ (Some "root") in
  UserRoutes.dispatch Scenario.decodeURIComponent Scenario.verifyToken
    UserRoutes.router req
  = UserRoutes.Reaches UserRoutes.getCurrentUserProfile req'
  /\ ((UserRoutes.getCurrentUserProfile = UserRoutes.getUserByIdAdmin
       /\ req' = req)
      \/ (needsIdentity UserRoutes.getCurrentUserProfile = true
          /\ exists tok id,
               reqCookies req !! "token" = Some tok
               /\ Scenario.verifyToken tok = Some id
               /\ reqUserId req' = Some id)).
Proof.
  cbv zeta. split; [by vm_compute |].
  apply (user_routes_identity Scenario.decodeURIComponent Scenario.verifyToken
           (Scenario.withToken GET "/me" "jwt:root")).
  by vm_compute.
Defined.

Lemma user_routes_without_token_witness :
  let req := Sample.noCookies GET "/42/admin" in
  reqCookies req !! "token" = None
  /\ UserRoutes.dispatch Scenario.decodeURIComponent Scenario.verifyToken
       UserRoutes.router req
     = UserRoutes.Reaches UserRoutes.getUserByIdAdmin req
  /\ UserRoutes.dispatch Scenario.decodeURIComponent Scenario.verifyToken
       UserRoutes.router (Sample.noCookies GET "/me") = UserRoutes.Rejected 401.
Proof.
  cbv zeta. split; [by vm_compute |]. split; [| by vm_compute].
  assert (H : exists h req',
             UserRoutes.dispatch Scenario.decodeURIComponent
               Scenario.verifyToken UserRoutes.router
               (Sample.noCookies GET "/42/admin") = UserRoutes.Reaches h req'
             /\ req' = Sample.noCookies GET "/42/admin").
  { do 2 eexists. split; by vm_compute. }
  destruct H as (h & req' & Hrun & ->).
  rewrite Hrun. f_equal.
  exact (user_routes_without_token Scenario.decodeURIComponent
           Scenario.verifyToken (Sample.noCookies GET "/42/admin") h _
           eq_refl Hrun).
Defined.

Lemma facility_mutations_gated_witness :
  let req := Scenario.withToken POST "/" "jwt:root" in
  let req' := mkRequest POST "/" (<["token" := "jwt:root"]> ∅) ∅ (Some "root") in
  FacilityRoutes.dispatch Scenario.decodeURIComponent Scenario.runMiddleware
    FacilityRoutes.router req
  = FacilityRoutes.Reaches FacilityRoutes.createFacility req'
  /\ FacilityRoutes.dispatch Scenario.decodeURIComponent Scenario.runMiddleware
       FacilityRoutes.router (Sample.noCookies POST "/")
     = FacilityRoutes.Rejected 401
  /\ exists req1,
       Scenario.runMiddleware FacilityRoutes.protect req = inl req1
       /\ Scenario.runMiddleware (FacilityRoutes.checkPermission "manage_tags")
            req1 = inl req'.
Proof.
  cbv zeta. split; [by vm_compute |]. split; [by vm_compute |].
  apply (facility_mutations_gated Scenario.decodeURIComponent
           Scenario.runMiddleware (Scenario.withToken POST "/" "jwt:root")
           FacilityRoutes.createFacility); by vm_compute.
Defined.

Lemma facility_reads_public_witness :
  FacilityRoutes.dispatch Scenario.decodeURIComponent Scenario.runMiddleware
    FacilityRoutes.router (Sample.noCookies GET "/7/")
  = FacilityRoutes.Reaches FacilityRoutes.getFacilityById
      (Sample.noCookies GET "/7/")
  /\ FacilityRoutes.dispatch Scenario.decodeURIComponent Scenario.runMiddleware
       FacilityRoutes.router (Sample.noCookies GET "/%zz")
     = FacilityRoutes.Rejected 400.
Proof.
  rewrite (facility_reads_public Scenario.decodeURIComponent
             Scenario.runMiddleware (Sample.noCookies GET "/7/") eq_refl).
  rewrite (facility_reads_public Scenario.decodeURIComponent
             Scenario.runMiddleware (Sample.noCookies GET "/%zz") eq_refl).
  split; by vm_compute.
Defined.

(** The paths on which the layers and the routers part ways with a cut at
    every "/": a parameter that does not decode, a doubled "/", a path of
    "/" alone. *)
Lemma router_edge_paths :
  let layer := UserRoutes.matchLayer Scenario.decodeURIComponent in
  let users req :=
    UserRoutes.dispatch Scenario.decodeURIComponent Scenario.verifyToken
      UserRoutes.router req in
  let facilities req :=
    FacilityRoutes.dispatch Scenario.decodeURIComponent Scenario.runMiddleware
      FacilityRoutes.router req in
  layer "/:userId/admin" "/42/admin/" = UserRoutes.Hit
  /\ layer "/:userId/admin" "/a%20b/ADMIN" = UserRoutes.Hit
  /\ layer "/:userId/admin" "/%zz/admin" = UserRoutes.DecodeError
  /\ layer "/:userId/admin" "/42//admin" = UserRoutes.Miss
  /\ layer "/:userId/admin" "//42/admin" = UserRoutes.Miss
  /\ layer "/:userId/admin" "/42/admin//" = UserRoutes.Miss
  /\ users (Sample.noCookies GET "/%zz/admin") = UserRoutes.Rejected 400
  /\ users (Sample.noCookies PUT "/%zz/admin") = UserRoutes.Rejected 400
  /\ users (Sample.noCookies GET "/42//admin") = UserRoutes.Unrouted
  /\ facilities (Sample.noCookies GET "/") 
     = FacilityRoutes.Reaches FacilityRoutes.getAllFacilities
         (Sample.noCookies GET "/")
  /\ facilities (Sample.noCookies GET "//") = FacilityRoutes.Unrouted
  /\ facilities (Sample.noCookies GET "/7//") = FacilityRoutes.Unrouted
  /\ facilities (Sample.noCookies GET "/%zz") = FacilityRoutes.Rejected 400
  /\ facilities (Sample.noCookies POST "/%zz") = FacilityRoutes.Rejected 400.
Proof. cbv zeta. repeat split; by vm_compute. Qed.

(** A login or an admin login that is not answered 200 sets no cookie: in
    particular an admin login that is refused for lack of the dashboard
    permission leaves no session token behind. *)
Theorem refused_login_sets_no_cookie isEmail authService NODE_ENV users b :
  (statusOf (login isEmail authService NODE_ENV users b) <> Some 200 ->
   cookiesOf (login isEmail authService NODE_ENV users b) = [])
  /\ (statusOf (adminLogin isEmail authService NODE_ENV users b) <> Some 200 ->
      cookiesOf (adminLogin isEmail authService NODE_ENV users b) = []).
Proof.
  unfold login, adminLogin. cbv zeta.
  destruct (_ || _); [done |].
  destruct (negb (isEmail _)); [done |].
  destruct (UserModel.findOneCollation _ users) as [u |]; [| done].
  destruct (negb (matchPassword authService _ u)); [done |].
  split; [done |].
  by destruct (checkAdminAccess authService (User._id u)) as [[|] |].
Qed.

Lemma refused_login_sets_no_cookie_witness :
  let plain := LoginBody.mk (Some "a@test.com") (Some "Passw0rd!") in
  statusOf (Sample.adminLogin Sample.users plain) = Some 403
  /\ cookiesOf (Sample.adminLogin Sample.users plain) = [].
Proof.
  cbv zeta. split; [by vm_compute |].
  apply (proj2 (refused_login_sets_no_cookie Sample.isEmail Sample.authService
                  (Some "production") Sample.users
                  (LoginBody.mk (Some "a@test.com") (Some "Passw0rd!")))).
  by vm_compute.
Defined.
